(** * hacCare: record identity and persistence model

    A shallow embedding of the storage core of the two hacCare front-ends:

    - [streamlit_app.py]: one JSON document per record in [Records/],
      a hashed-password file [users.json], the Save Record handler, the
      All Records enumeration and its Delete button;
    - [main.py]: the spreadsheet index [records.xlsx] read by
      [load_records] and extended by [save_record_to_excel].

    Python values are an inductive type, dictionaries keep their insertion
    order, raising code returns [option] ([None] is an exception), and the
    file system is a finite map from path names to file contents.

    A text is a string read as the sequence of its code points. The model
    covers the texts whose code points are below 256; on these [Py.isspace],
    [Py.lower], [Py.int] and [Py.len] follow [str.isspace], [str.lower],
    [int] and [len]. The directories the programs write to hold files
    only, and a file has one name: a name with a slash names no file of
    such a directory. Limits that are not the programs' own are left out:
    the length a file name may have, and the number of digits that [int]
    and [str] accept. *)

From Stdlib Require Import Ascii String.
From stdpp Require Import base option list strings gmap sorting pretty.

Set Warnings "-register-all".

(** ** Python values

    The values [json.load] produces and [json.dump] accepts, which are also
    the cell values of a worksheet. A float is carried as its binary64 bit
    pattern; a dictionary is the list of its items in insertion order. *)

Inductive value : Type :=
| VNone
| VBool (b : bool)
| VInt (z : Z)
| VFloat (bits : Z)
| VStr (s : string)
| VList (l : list value)
| VDict (d : list (string * value)).

Abbreviation dict := (list (string * value)).

(** ** Library functions from outside the repository

    [json], [hashlib], the printing of floats and containers, the widgets
    of Streamlit and the cells of openpyxl are not code of the repository:
    they are operations of an interface, and what the proofs need of them
    is stated as a hypothesis where it is used. *)

Class Extern := {
  (** what a text file holds *)
  text : Type;
  (** [json.dump(v, f, indent=2)]: the text written to [f] *)
  json_dumps : value → text;
  (** [json.load(f)]: the value parsed, [None] for a [JSONDecodeError] *)
  json_loads : text → option value;
  (** [hashlib.sha256(s.encode()).hexdigest()] *)
  sha256_hexdigest : string → string;
  (** [str(v)] for a float, a list or a dictionary *)
  repr : value → string;
  (** whether the widget of the Add/Edit page that starts from the value
      stored under a key takes that value: [st.text_input],
      [st.date_input] after [date.fromisoformat], [st.number_input],
      [st.data_editor] after [pd.DataFrame]; [false] is the exception of
      the library *)
  widget_takes : string → value → bool;
  (** what [load_workbook] finds in a cell that [ws.append] was given a
      text for, after [wb.save]; [None] is the exception of [append] on a
      text openpyxl refuses *)
  xlsx_cell : string → option value;
}.

(** ** The built-ins the two programs call *)

Module Py.

(** [d.get(k)]: the value bound to [k], or nothing. *)
Fixpoint dict_get (k : string) (d : dict) : option value :=
  match d with
  | [] => None
  | (k', v) :: d' => if String.eqb k k' then Some v else dict_get k d'
  end.

(** [d[k] = v]: rebinds [k] where it stands, or appends a new item. *)
Fixpoint dict_set (k : string) (v : value) (d : dict) : dict :=
  match d with
  | [] => [(k, v)]
  | (k', v') :: d' =>
      if String.eqb k k' then (k', v) :: d' else (k', v') :: dict_set k v d'
  end.

(** [isinstance(v, dict)] with the dictionary at hand. *)
Definition as_dict (v : value) : option dict :=
  match v with VDict d => Some d | _ => None end.

Definition is_dict (v : value) : bool :=
  match v with VDict _ => true | _ => false end.

Definition as_list (v : value) : option (list value) :=
  match v with VList l => Some l | _ => None end.

(** [len(v)]: of a text the number of its code points; a [TypeError] on
    values that have no length. *)
Definition len (v : value) : option nat :=
  match v with
  | VStr s => Some (String.length s)
  | VList l => Some (length l)
  | VDict d => Some (length d)
  | _ => None
  end.

(** [c.lower()] and [s.lower()]: the letters that have a lower case are
    A to Z and, of the code points from 0xc0 to 0xde, all but the
    multiplication sign 0xd7; the lower case lies 32 above. *)
Definition is_upper (c : ascii) : bool :=
  let n := nat_of_ascii c in
  ((65 <=? n)%nat && (n <=? 90)%nat) ||
  ((192 <=? n)%nat && (n <=? 222)%nat && negb (n =? 215)%nat).

Definition lower_char (c : ascii) : ascii :=
  if is_upper c then ascii_of_nat (nat_of_ascii c + 32) else c.

Fixpoint lower (s : string) : string :=
  match s with
  | EmptyString => EmptyString
  | String c s' => String (lower_char c) (lower s')
  end.

(** [c.isspace()], the characters [s.strip()] removes: tab to carriage
    return, the four separators 0x1c to 0x1f, the blank, the next-line
    character 0x85 and the no-break space 0xa0. *)
Definition isspace (c : ascii) : bool :=
  let n := nat_of_ascii c in
  ((9 <=? n)%nat && (n <=? 13)%nat) || ((28 <=? n)%nat && (n <=? 32)%nat) ||
  (n =? 133)%nat || (n =? 160)%nat.

Fixpoint lstrip (s : string) : string :=
  match s with
  | EmptyString => EmptyString
  | String c s' => if isspace c then lstrip s' else s
  end.

Fixpoint rstrip (s : string) : string :=
  match s with
  | EmptyString => EmptyString
  | String c s' =>
      match rstrip s' with
      | EmptyString => if isspace c then EmptyString else String c EmptyString
      | r => String c r
      end
  end.

(** [s.strip()] *)
Definition strip (s : string) : string := rstrip (lstrip s).

(** [s.startswith(p)] *)
Definition startswith (p s : string) : bool := String.prefix p s.

(** [s.split(sep)] for a separator of one character: the pieces between
    the occurrences of [sep], never an empty list. *)
Fixpoint split (sep : ascii) (s : string) : list string :=
  match s with
  | EmptyString => [EmptyString]
  | String c s' =>
      if Ascii.eqb c sep then EmptyString :: split sep s'
      else match split sep s' with
           | [] => [String c EmptyString]
           | p :: ps => String c p :: ps
           end
  end.

(** [s.replace(old, new)]: every occurrence of [old], scanned from the
    left without overlap, becomes [new]. [skip] counts the characters of a
    matched occurrence still to be dropped. *)
Fixpoint replace_go (old new : string) (skip : nat) (s : string) : string :=
  match s with
  | EmptyString => EmptyString
  | String c s' =>
      match skip with
      | S k => replace_go old new k s'
      | O =>
          if String.prefix old s
          then new +:+ replace_go old new (String.length old - 1) s'
          else String c (replace_go old new 0 s')
      end
  end.

Fixpoint replace_empty (new s : string) : string :=
  match s with
  | EmptyString => new
  | String c s' => new +:+ String c (replace_empty new s')
  end.

Definition replace (old new s : string) : string :=
  match old with
  | EmptyString => replace_empty new s
  | _ => replace_go old new 0 s
  end.

(** [int(s)]: blanks around, an optional sign, decimal digits with single
    underscores between them; [None] is the [ValueError]. The blanks
    [int] skips are those of [isspace] without the four separators 0x1c to
    0x1f, and the decimal digits below 256 are 0 to 9. *)
Definition is_digit (c : ascii) : bool :=
  let n := nat_of_ascii c in (48 <=? n)%nat && (n <=? 57)%nat.

Definition is_blank (c : ascii) : bool :=
  let n := nat_of_ascii c in
  ((9 <=? n)%nat && (n <=? 13)%nat) || (n =? 32)%nat ||
  (n =? 133)%nat || (n =? 160)%nat.

Fixpoint lskip (s : string) : string :=
  match s with
  | EmptyString => EmptyString
  | String c s' => if is_blank c then lskip s' else s
  end.

Fixpoint rskip (s : string) : string :=
  match s with
  | EmptyString => EmptyString
  | String c s' =>
      match rskip s' with
      | EmptyString => if is_blank c then EmptyString else String c EmptyString
      | r => String c r
      end
  end.

Definition digit_val (c : ascii) : Z := Z.of_nat (nat_of_ascii c) - 48.

Fixpoint digits_go (acc : Z) (after_digit : bool) (s : string) : option Z :=
  match s with
  | EmptyString => if after_digit then Some acc else None
  | String c s' =>
      if is_digit c then digits_go (10 * acc + digit_val c) true s'
      else if Ascii.eqb c "_"%char && after_digit then digits_go acc false s'
      else None
  end.

Definition int (s : string) : option Z :=
  match rskip (lskip s) with
  | String "+"%char r => digits_go 0 false r
  | String "-"%char r => Z.opp <$> digits_go 0 false r
  | r => digits_go 0 false r
  end.

(** [str(n)] for an integer. *)
Definition str_of_int (z : Z) : string := pretty z.

(** [str(v)] *)
Definition str `{Extern} (v : value) : string :=
  match v with
  | VStr s => s
  | VInt z => str_of_int z
  | VNone => "None"
  | VBool true => "True"
  | VBool false => "False"
  | _ => repr v
  end.

(** [s.zfill(width)]: zeros on the left up to [width], after the sign if
    the text starts with one. *)
Fixpoint zeros (n : nat) : string :=
  match n with O => EmptyString | S k => String "0"%char (zeros k) end.

Definition zfill (width : nat) (s : string) : string :=
  let n := String.length s in
  if (width <=? n)%nat then s
  else match s with
       | String c r =>
           if Ascii.eqb c "+"%char || Ascii.eqb c "-"%char
           then String c (zeros (width - n) +:+ r)
           else zeros (width - n) +:+ s
       | EmptyString => zeros width
       end.

(** A text that does not start with a sign. *)
Definition unsigned (s : string) : Prop :=
  match s with
  | String c _ => c ≠ "+"%char ∧ c ≠ "-"%char
  | EmptyString => True
  end.

(** [max(l)] of a list of integers; the empty list is the [ValueError]. *)
Definition max (l : list Z) : option Z :=
  match l with
  | [] => None
  | x :: xs => Some (foldl Z.max x xs)
  end.

(** [c in s] for a character, and the part of [s] before the first [c]
    (all of [s] when there is none), which is [s.split(c)[0]]. *)
Fixpoint contains (c : ascii) (s : string) : bool :=
  match s with
  | EmptyString => false
  | String a s' => Ascii.eqb a c || contains c s'
  end.

Fixpoint before (c : ascii) (s : string) : string :=
  match s with
  | EmptyString => EmptyString
  | String a s' => if Ascii.eqb a c then EmptyString else String a (before c s')
  end.

(** A name an entry of a directory can have: not empty, not one of the
    two dot names, without slash and without the character 0. [open],
    [os.remove] and [shutil.copy] raise on other names, and
    [os.path.exists] is false of them. *)
Definition valid_name (n : string) : bool :=
  negb (String.eqb n "") && negb (String.eqb n ".") && negb (String.eqb n "..") &&
  negb (contains "/" n) && negb (contains "000" n).

(** [os.path.join(a, b)], two arguments, POSIX rules: an absolute [b]
    replaces [a]; otherwise one separator stands between them unless [a]
    is empty or already ends with it. *)
Fixpoint endswith_slash (s : string) : bool :=
  match s with
  | EmptyString => false
  | String c EmptyString => Ascii.eqb c "/"%char
  | String _ s' => endswith_slash s'
  end.

Definition path_join (a b : string) : string :=
  if startswith "/" b then b
  else if String.eqb a "" || endswith_slash a then a +:+ b
  else a +:+ "/" +:+ b.

End Py.


(** ** streamlit_app.py *)

Module Streamlit.

(** The file system: path name to contents. [open(p, "w")] binds [p],
    [os.path.exists] tests it, [os.remove] unbinds it, [os.listdir(d)]
    lists the names bound in [d]. A path whose last part is no name of a
    directory entry stands for no file, whatever the map binds it to. *)
Abbreviation fs := (gmap string text).

Section Store.
Context `{Extern}.

Fixpoint chop_prefix (p s : string) : option string :=
  match p, s with
  | EmptyString, _ => Some s
  | String a p', String b s' => if Ascii.eqb a b then chop_prefix p' s' else None
  | String _ _, EmptyString => None
  end.

Definition listdir (dir : string) (f : fs) : list string :=
  filter (λ n, Py.valid_name n = true)
         (omap (chop_prefix (dir +:+ "/")) (map_to_list f).*1).

(** The file [name] of the directory [dir]: what it holds if it exists,
    the file system after it was written, and after it was removed.
    [None] is [False] for [os.path.exists], the exception for [open] and
    [os.remove]. *)
Definition file_at (f : fs) (dir name : string) : option text :=
  if Py.valid_name name then f !! Py.path_join dir name else None.

Definition write_at (f : fs) (dir name : string) (t : text) : option fs :=
  if Py.valid_name name then Some (<[Py.path_join dir name := t]> f) else None.

Definition remove_at (f : fs) (dir name : string) : option fs :=
  match file_at f dir name with
  | Some _ => Some (delete (Py.path_join dir name) f)
  | None => None
  end.

(** *** Authentication *)

Definition USERS_FILE : string := "users.json".

Definition hash_password (pw : string) : string := sha256_hexdigest pw.

Definition seed_users : value :=
  VDict [("admin", VDict [("password", VStr (hash_password "haccare"))])].

(** The body of the loop of [load_users] for one item [(u, info)] of the
    file; the body reads and writes [data[u]] only. The result is the item
    as it stands afterwards and whether [changed] was set. [None] is the
    [KeyError] of a dictionary without password, the [TypeError] of [len]
    and the [AttributeError] of [encode] on a password that is no text. *)
Definition normalize_entry (e : string * value) : option ((string * value) * bool) :=
  let '(u, info) := e in
  let '(entry, changed) :=
    if Py.is_dict info then (info, false)
    else (VDict [("password", VStr (Py.str info))], true) in
  d ← Py.as_dict entry;
  pw ← Py.dict_get "password" d;
  n ← Py.len pw;
  if bool_decide (n ≠ 64%nat) then
    match pw with
    | VStr s => Some ((u, VDict (Py.dict_set "password" (VStr (hash_password s)) d)), true)
    | _ => None
    end
  else Some ((u, entry), changed).

(** [{u.lower(): info for u, info in data.items()}] *)
Definition lower_keys (data : dict) : dict :=
  foldl (λ acc e, Py.dict_set (Py.lower e.1) e.2 acc) [] data.

Definition load_users (f : fs) : option (fs * dict) :=
  let f1 := match f !! USERS_FILE with
            | None => <[USERS_FILE := json_dumps seed_users]> f
            | Some _ => f
            end in
  t ← f1 !! USERS_FILE;
  data ← json_loads t;
  items ← Py.as_dict data;
  r ← mapM normalize_entry items;
  let data' := r.*1 in
  let f2 := if existsb snd r
            then <[USERS_FILE := json_dumps (VDict data')]> f1 else f1 in
  Some (f2, lower_keys data').

(** [users] is the dictionary [load_users()] returned at start-up. *)
Definition verify_password (users : dict) (user pw : string) : bool :=
  match Py.dict_get (Py.lower (Py.strip user)) users with
  | Some (VDict rec) =>
      match Py.dict_get "password" rec with
      | Some (VStr s) => String.eqb s (hash_password pw)
      | _ => false
      end
  | _ => false
  end.

(** What the loop of [load_users] is said to achieve. The password as
    the file has it, when it is text: the [password] field of an item that
    is a dictionary, [str] of an item that is not. *)
Definition stored_text (info : value) : option string :=
  match info with
  | VDict d =>
      match Py.dict_get "password" d with
      | Some (VStr s) => Some s
      | _ => None
      end
  | _ => Some (Py.str info)
  end.

(** A text of 64 characters stands as it is, any other is hashed. *)
Definition normal_password (s : string) : string :=
  if Nat.eqb (String.length s) 64 then s else hash_password s.


(** An item whose password has length 64, text or not. *)
Definition length64_entry (v : value) : Prop :=
  ∃ d p, v = VDict d ∧ Py.dict_get "password" d = Some p ∧
         Py.len p = Some 64%nat.

(** *** Storage *)

Definition RECORDS_DIR : string := "Records".

Definition record_file (rid : string) : string := "record_" +:+ rid +:+ ".json".

Definition record_path (rid : string) : string :=
  Py.path_join RECORDS_DIR (record_file rid).

Definition load_patient (f : fs) (rid : string) : option value :=
  match file_at f RECORDS_DIR (record_file rid) with
  | Some t => json_loads t
  | None => Some (VDict [])
  end.

(** [None] is the exception of [open]. *)
Definition save_patient (f : fs) (rid : string) (data : value) : option fs :=
  write_at f RECORDS_DIR (record_file rid) (json_dumps data).

(** *** Add/Edit Record: the Save Record handler *)

(** What the widgets of the page hold when the button is pressed, and the
    clock. *)
Record form := {
  name : string; dob : string; adm : string; gender : string;
  physician : string; diagnosis : string; allergies : string; notes : string;
  sched : list value; prn : list value; iv : list value;
  sys_bp : Z; dia_bp : Z; pulse : Z; temp : Z; now : string
}.

Definition record_files (f : fs) : list string :=
  filter (λ n, Py.startswith "record_" n = true) (listdir RECORDS_DIR f).

(** [existing] of the auto ID branch; [None] when [int] raises. *)
Definition existing_ids (f : fs) : option (list Z) :=
  mapM (λ n, Py.int (Py.replace ".json" "" (Py.replace "record_" "" n)))
       (record_files f).

(** [str(max(existing)+1 if existing else 1).zfill(4)]; [existing] is
    falsy exactly when [max] has nothing to return. *)
Definition next_json_id (existing : list Z) : string :=
  Py.zfill 4 (Py.str_of_int (match Py.max existing with
                             | Some m => m + 1
                             | None => 1
                             end)).

Definition reading (fm : form) : value :=
  VDict [("Systolic", VInt (sys_bp fm)); ("Diastolic", VInt (dia_bp fm));
         ("Pulse", VInt (pulse fm)); ("Temperature", VFloat (temp fm));
         ("DateTime", VStr (now fm))].

Definition compile_record (rec_id : string) (vitals : list value) (fm : form) : value :=
  VDict [("Patient Name", VStr (name fm));
         ("Patient ID", VStr rec_id);
         ("Date of Birth", VStr (dob fm));
         ("Admission Date", VStr (adm fm));
         ("Gender", VStr (gender fm));
         ("Attending Physician", VStr (physician fm));
         ("Diagnosis", VStr (diagnosis fm));
         ("Allergies/Reactions", VStr (allergies fm));
         ("Notes", VStr (notes fm));
         ("MAR", VDict [("Scheduled", VList (sched fm));
                        ("PRN", VList (prn fm));
                        ("IV", VList (iv fm))]);
         ("Vitals", VList (vitals ++ [reading fm])%list)].

(** [data.get("Vitals", [])] of the Vitals tab, as the handler needs it
    for [vitals + [...]]: a list. *)
Definition vitals_of (data : value) : option (list value) :=
  d ← Py.as_dict data;
  Py.as_list (default (VList []) (Py.dict_get "Vitals" d)).

(** [if v:], the truth value of a Python value. The two zeros of a float
    are the bit patterns 0 and 2^63. *)
Definition truthy (v : value) : bool :=
  match v with
  | VNone => false
  | VBool b => b
  | VInt z => negb (Z.eqb z 0)
  | VFloat bits => negb (Z.eqb bits 0 || Z.eqb bits 9223372036854775808)
  | VStr s => negb (String.eqb s EmptyString)
  | VList l => match l with [] => false | _ => true end
  | VDict d => match d with [] => false | _ => true end
  end.

(** [s[-1]] of a text that is not empty. *)
Definition last_char (s : string) : string :=
  String.substring (String.length s - 1) 1 s.

(** [last = vitals[-1] if vitals else {}] with
    [vitals = data.get("Vitals", [])]; [None] is the [TypeError] or
    [KeyError] of the subscript on a truthy value that is neither list nor
    text. *)
Definition last_reading (data : value) : option value :=
  d ← Py.as_dict data;
  let vitals := default (VList []) (Py.dict_get "Vitals" d) in
  if truthy vitals then
    match vitals with
    | VList l => last l
    | VStr s => Some (VStr (last_char s))
    | _ => None
    end
  else Some (VDict []).

(** The values the four number inputs of the Vitals tab start from:
    [last.get("Systolic",120)], [last.get("Diastolic",80)],
    [last.get("Pulse",70)], [last.get("Temperature",37.0)]. *)
Definition prefill (data : value) : option (value * value * value * value) :=
  l ← last_reading data;
  r ← Py.as_dict l;
  Some (default (VInt 120) (Py.dict_get "Systolic" r),
        default (VInt 80) (Py.dict_get "Diastolic" r),
        default (VInt 70) (Py.dict_get "Pulse" r),
        default (VFloat 4630404104378646528) (Py.dict_get "Temperature" r)).

(** *** Add/Edit Record: the tabs drawn before the button *)

Definition GENDERS : list string := ["Male"; "Female"; "Other"].

Definition PHYSICIANS : list string := ["Dr. Buggler"; "Dr. Elliot"; "Dr. Tyrell"].

(** The widget that starts from [d.get(key, dflt)] takes the value stored
    under [key]; the default the source gives is always taken. *)
Definition taken (key : string) (d : dict) : bool :=
  match Py.dict_get key d with
  | Some v => widget_takes key v
  | None => true
  end.

(** [date.fromisoformat(d.get(key, date.today().isoformat()))]: a
    [TypeError] on a stored value that is no text. *)
Definition text_or_absent (key : string) (d : dict) : bool :=
  match Py.dict_get key d with
  | Some (VStr _) | None => true
  | Some _ => false
  end.

(** [options.index(d.get(key, options[0]))]: a [ValueError] unless the
    stored value is one of the options. *)
Definition listed (options : list string) (key : string) (d : dict) : bool :=
  match Py.dict_get key d with
  | Some (VStr s) => bool_decide (s ∈ options)
  | Some _ => false
  | None => true
  end.

Definition info_tab (d : dict) : bool :=
  taken "Patient Name" d &&
  text_or_absent "Date of Birth" d && taken "Date of Birth" d &&
  text_or_absent "Admission Date" d && taken "Admission Date" d &&
  listed GENDERS "Gender" d && listed PHYSICIANS "Attending Physician" d &&
  taken "Diagnosis" d && taken "Allergies/Reactions" d && taken "Notes" d.

(** [raw = data.get("MAR", {})] and the three tables made of
    [raw.get(section, [])]; [None] is the [AttributeError] of [get]. *)
Definition mar_tab (d : dict) : option bool :=
  raw ← Py.as_dict (default (VDict []) (Py.dict_get "MAR" d));
  Some (taken "Scheduled" raw && taken "PRN" raw && taken "IV" raw).

Definition vitals_tab (data : value) : option bool :=
  l ← last_reading data;
  r ← Py.as_dict l;
  Some (taken "Systolic" r && taken "Diastolic" r &&
        taken "Pulse" r && taken "Temperature" r).

(** The page from the Info tab to the Labels tab, drawn for the document
    [data]; [None] when some line of it raises, so that the button below
    is not reached. The Labels tab catches what it raises. *)
Definition draw (data : value) : option unit :=
  d ← Py.as_dict data;
  m ← mar_tab d;
  v ← vitals_tab data;
  if info_tab d && m && v then Some () else None.

(** One run of the page with [rec_id] in the Record # field and the Save
    Record button pressed: the record is loaded, the tabs are drawn, an
    id is made up if the field is empty, and the compiled record is
    saved. What the widgets return is the [form]. The result is the file
    system and the id saved under; [None] when a line raises. *)
Definition save_record (f : fs) (rec_id : string) (fm : form) : option (fs * string) :=
  data ← (if String.eqb rec_id "" then Some (VDict []) else load_patient f rec_id);
  _ ← draw data;
  rid ← (if String.eqb rec_id "" then next_json_id <$> existing_ids f else Some rec_id);
  vitals ← vitals_of data;
  f' ← save_patient f rid (compile_record rid vitals fm);
  Some (f', rid).

(** Successive Save Record cycles on one Record # value. *)
Fixpoint save_cycles (f : fs) (rec_id : string) (fms : list form) : option fs :=
  match fms with
  | [] => Some f
  | fm :: rest => r ← save_record f rec_id fm; save_cycles r.1 rec_id rest
  end.

(** *** All Records *)

(** [f.split("_")[1].split(".")[0]]; [None] is the [IndexError]. *)
Definition rid_of_filename (n : string) : option string :=
  p ← Py.split "_"%char n !! 1%nat;
  Py.split "."%char p !! 0%nat.

(** An id without underscore and without period. *)
Definition plain_id (rid : string) : Prop :=
  Py.contains "_" rid = false ∧ Py.contains "." rid = false.

(** The ids the page lists, in the order of its loop. *)
Definition list_ids (f : fs) : option (list string) :=
  mapM rid_of_filename (merge_sort String.le (record_files f)).

(** The Delete button: [os.remove(record_path(rid))]; [None] is the
    [FileNotFoundError]. *)
Definition delete_record (f : fs) (rid : string) : option fs :=
  remove_at f RECORDS_DIR (record_file rid).

(** The cut as the claim words it: what stands between the first
    underscore of the file name and the next period. *)
Fixpoint after (c : ascii) (s : string) : string :=
  match s with
  | EmptyString => EmptyString
  | String a s' => if Ascii.eqb a c then s' else after c s'
  end.

Definition claimed_rid_of_filename (n : string) : string :=
  Py.before "." (after "_" n).

End Store.
End Streamlit.

(** ** main.py *)

Module Scanner.

(** The active sheet of [records.xlsx]: its rows from the top, each the
    cells written to it. The state of the program is [None] while the
    workbook file is absent. *)
Abbreviation worksheet := (list (list value)).

Section Index.
Context `{Extern}.

Definition header : list value := [VStr "Number"; VStr "Type"; VStr "File"].

Definition FOLDERS : list (string * string) :=
  [("Record", "Records"); ("Med", "Meds")].

Fixpoint folder_of (k : string) (folders : list (string * string)) : option string :=
  match folders with
  | [] => None
  | (k', v) :: rest => if String.eqb k k' then Some v else folder_of k rest
  end.

(** [FOLDERS.get(k, dflt)]: only text is equal to a key. *)
Definition folders_get (k : value) (dflt : string) : string :=
  match k with
  | VStr s => default dflt (folder_of s FOLDERS)
  | _ => dflt
  end.

(** [type_choice in FOLDERS] *)
Definition in_folders (k : string) : bool :=
  match folder_of k FOLDERS with Some _ => true | None => false end.

(** [ws.max_column] and [ws.iter_rows(min_row=2, values_only=True)]: the
    rows below the header, each filled with [None] up to the width of the
    sheet. *)
Definition max_column (ws : worksheet) : nat :=
  Nat.max 1 (max_list (length <$> ws)).

Definition pad (w : nat) (row : list value) : list value :=
  (row ++ replicate (w - length row) VNone)%list.

Definition iter_rows (ws : worksheet) : list (list value) :=
  pad (max_column ws) <$> drop 1 ws.

(** The body of the loop of [load_records]; [None] is the [IndexError] of
    a missing column or the [TypeError] of [os.path.join] on a cell that
    is no text. *)
Definition row_step (records : gmap string string) (row : list value)
  : option (gmap string string) :=
  c0 ← row !! 0%nat;
  match c0 with
  | VNone => Some records
  | _ =>
      let number := Py.str c0 in
      c1 ← row !! 1%nat;
      let folder := folders_get c1 "" in
      c2 ← row !! 2%nat;
      match c2 with
      | VStr file => Some (<[number := Py.path_join folder file]> records)
      | _ => None
      end
  end.

Fixpoint scan_rows (records : gmap string string) (rows : list (list value))
  : option (gmap string string) :=
  match rows with
  | [] => Some records
  | row :: rest => r ← row_step records row; scan_rows r rest
  end.

Definition load_records (st : option worksheet)
  : option (option worksheet * gmap string string) :=
  let ws := match st with None => [header] | Some ws => ws end in
  records ← scan_rows ∅ (iter_rows ws);
  Some (Some ws, records).

(** The three arguments are texts. [None] is the [FileNotFoundError] of
    [load_workbook] or the exception of [append]; the workbook is saved
    only after the row was appended. The sheet is the one the next
    [load_workbook] reads. *)
Definition save_record_to_excel (st : option worksheet)
    (number record_type filename : string) : option (option worksheet) :=
  ws ← st;
  c0 ← xlsx_cell number;
  c1 ← xlsx_cell record_type;
  c2 ← xlsx_cell filename;
  Some (Some (ws ++ [[c0; c1; c2]])%list).

(** A text the workbook gives back as it was given. *)
Definition kept (s : string) : Prop := xlsx_cell s = Some (VStr s).

(** A valid entry: what [add_record] lets through to
    [save_record_to_excel], a record number that is not empty, a type
    that is a key of [FOLDERS] and a file name that is not absolute, of
    texts the workbook keeps. *)
Definition valid_entry (number record_type filename : string) : Prop :=
  number ≠ "" ∧ in_folders record_type = true ∧ Py.startswith "/" filename = false ∧
  kept number ∧ kept record_type ∧ kept filename.

(** The states of the index the program itself brings about: the sheet
    [load_records] creates, and any sheet extended by an entry that
    [add_record] lets through. *)
Inductive index_state : option worksheet → Prop :=
| index_created : index_state (Some [header])
| index_appended st st' number record_type filename :
    index_state st →
    valid_entry number record_type filename →
    save_record_to_excel st number record_type filename = Some st' →
    index_state st'.

End Index.
End Scanner.

(** ** Texts over a set of characters *)

(** Every character of [s] satisfies [P]. *)
Fixpoint all_chars (P : ascii → bool) (s : string) : bool :=
  match s with
  | EmptyString => true
  | String c s' => P c && all_chars P s'
  end.

(** The characters of a decimal numeral: the digits and the minus sign. *)
Definition is_numchar (c : ascii) : bool := Py.is_digit c || Ascii.eqb c "-"%char.

(** ** A small instance of the interface

    Files hold the value itself, the digest is the first 64 characters of
    the password followed by zeros, the widgets take every value, and a
    cell refuses the control characters, is empty for the empty text and
    keeps any other text. It serves to run the definitions on concrete
    inputs. *)

Definition demo_digest (s : string) : string :=
  String.substring 0 64 (s +:+ Py.zeros 64).

Definition is_control (c : ascii) : bool :=
  let n := nat_of_ascii c in
  (n <=? 8)%nat || (n =? 11)%nat || (n =? 12)%nat || ((14 <=? n)%nat && (n <=? 31)%nat).

Definition demo_cell (s : string) : option value :=
  if all_chars (λ c, negb (is_control c)) s
  then Some (if String.eqb s "" then VNone else VStr s)
  else None.

(** Two states of the form of the Add/Edit page. *)
Definition morning : Streamlit.form := {|
  Streamlit.name := "Jane Doe"; Streamlit.dob := "1991-03-14";
  Streamlit.adm := "2025-05-20"; Streamlit.gender := "Female";
  Streamlit.physician := "Dr. Elliot"; Streamlit.diagnosis := "Pneumonia";
  Streamlit.allergies := "Penicillin"; Streamlit.notes := "";
  Streamlit.sched := []; Streamlit.prn := []; Streamlit.iv := [];
  Streamlit.sys_bp := 120; Streamlit.dia_bp := 80; Streamlit.pulse := 70;
  Streamlit.temp := 4630685873269866496; Streamlit.now := "2025-05-20T08:00:00"
|}.

Definition evening : Streamlit.form := {|
  Streamlit.name := "Jane Doe"; Streamlit.dob := "1991-03-14";
  Streamlit.adm := "2025-05-20"; Streamlit.gender := "Female";
  Streamlit.physician := "Dr. Elliot"; Streamlit.diagnosis := "Pneumonia";
  Streamlit.allergies := "Penicillin"; Streamlit.notes := "resting";
  Streamlit.sched := []; Streamlit.prn := []; Streamlit.iv := [];
  Streamlit.sys_bp := 118; Streamlit.dia_bp := 76; Streamlit.pulse := 64;
  Streamlit.temp := 4630615504525688832; Streamlit.now := "2025-05-20T20:00:00"
|}.


Definition demo : Extern := {|
  text := value;
  json_dumps v := v;
  json_loads v := Some v;
  sha256_hexdigest := demo_digest;
  repr _ := "<repr>";
  widget_takes _ _ := true;
  xlsx_cell := demo_cell
|}.

(** ** streamlit_app.py: the pages around the store *)

Module Pages.

Section Pages.
Context `{Extern}.
Import Streamlit.

(** The id the auto ID branch reads off one file name:
    [int(f.replace("record_","").replace(".json",""))]. *)
Definition id_of_name (n : string) : option Z :=
  Py.int (Py.replace ".json" EmptyString (Py.replace "record_" EmptyString n)).

(** *** Home: the Info tab *)

Definition INFO_KEYS : list string :=
  ["Patient Name"; "Patient ID"; "Date of Birth"; "Gender";
   "Admission Date"; "Attending Physician"; "Diagnosis"; "Allergies/Reactions"].

(** What the Home page shows for the text of its Record # field: nothing
    while the field is empty, the warning when the loaded document is
    falsy, else the table of the Info tab and the notes if they are
    truthy. [None] is the [AttributeError] of [get] on a document that is
    no dictionary. *)
Inductive home_view : Type :=
| HomeIdle
| HomeNotFound
| HomeInfo (table : dict) (notes : option value).

Definition home (f : fs) (rid : string) : option home_view :=
  if String.eqb rid EmptyString then Some HomeIdle
  else
    data ← load_patient f rid;
    if truthy data then
      d ← Py.as_dict data;
      Some (HomeInfo
              ((λ k, (k, default (VStr EmptyString) (Py.dict_get k d))) <$> INFO_KEYS)
              (match Py.dict_get "Notes" d with
               | Some n => if truthy n then Some n else None
               | None => None
               end))
    else Some HomeNotFound.

(** *** All Records: the rows and the Delete button *)

(** The row made for the file [n] of the listing: the id
    [f.split("_")[1].split(".")[0]] and the name shown,
    [load_patient(rid).get("Patient Name","(No Name)")]; [None] is the
    [AttributeError] of [get] on a document that is no dictionary. *)
Definition row_of (f : fs) (n : string) : option (string * value) :=
  rid ← rid_of_filename n;
  data ← load_patient f rid;
  d ← Py.as_dict data;
  Some (rid, default (VStr "(No Name)") (Py.dict_get "Patient Name" d)).

(** The loop of the page over [names] with the Delete button of the row
    of the file [n] pressed. The two buttons of a row have the keys
    [open_<rid>] and [del_<rid>]; [seen] holds the ids of the rows made
    so far, and a row whose id is among them raises, two widgets having
    one key. The row of [n] runs [os.remove(record_path(rid))] and the
    page starts over; [None] is an exception, or no row for [n]. *)
Fixpoint press_delete (f : fs) (names : list string) (seen : list string) (n : string)
  : option fs :=
  match names with
  | [] => None
  | m :: rest =>
      r ← row_of f m;
      if bool_decide (r.1 ∈ seen) then None
      else if String.eqb m n then delete_record f r.1
      else press_delete f rest (r.1 :: seen) n
  end.

Definition delete_row (f : fs) (n : string) : option fs :=
  press_delete f (merge_sort String.le (record_files f)) [] n.

End Pages.
End Pages.

(** ** main.py: the two buttons *)

Module Gui.

Section Gui.
Context `{Extern}.
Import Scanner.

(** The text of the sample record page; its wording plays no part. *)
Variable html_content : string.

(** [os.path.basename(p)], POSIX rules: what follows the last slash. *)
Fixpoint basename (p : string) : string :=
  match p with
  | EmptyString => EmptyString
  | String c p' =>
      if Py.contains "/" p' then basename p'
      else if Ascii.eqb c "/"%char then p' else p
  end.

(** The program while its window is open: the workbook file, the
    dictionary [records], and the files on disk with what they hold. *)
Record app := {
  sheet : option worksheet;
  records : gmap string string;
  disk : gmap string string
}.

(** What [open_record] tells: the file it opened, the file of an entry
    that is gone from disk, or no entry. *)
Inductive signal : Type :=
| Opened (path : string)
| MissingFile (path : string)
| NotFound.

(** The tone played: [Beep(1000, 150)] or [Beep(300, 300)]. *)
Inductive tone : Type := SuccessBeep | ErrorBeep.

Definition open_record (a : app) (entry : string) : signal * tone :=
  let number := Py.strip entry in
  match records a !! number with
  | Some record =>
      if bool_decide (is_Some (disk a !! record))
      then (Opened record, SuccessBeep)
      else (MissingFile record, ErrorBeep)
  | None => (NotFound, ErrorBeep)
  end.

(** What the dialogs of [add_record] return: [askstring] gives [None]
    when it is cancelled, [askopenfilename] the empty text. *)
Record dialogs := {
  ask_number : option string;
  ask_type : option string;
  ask_generate : bool;
  ask_file : string
}.

(** How [add_record] ends: it returned without a word, showed the Invalid
    Type box, generated the sample page, added an uploaded file, or an
    exception left it. *)
Inductive ending : Type :=
| Returned
| InvalidType
| Generated (filename : string)
| Added
| Raised.

(** [records[number] = dest_path] and [save_record_to_excel(...)]; when
    the latter raises, the dictionary and the disk stay changed. *)
Definition register (a : app) (disk' : gmap string string)
    (number record_type filename dest_path : string) (done : ending) : app * ending :=
  let records' := <[number := dest_path]> (records a) in
  match save_record_to_excel (sheet a) number record_type filename with
  | Some sheet' => ({| sheet := sheet'; records := records'; disk := disk' |}, done)
  | None => ({| sheet := sheet a; records := records'; disk := disk' |}, Raised)
  end.

(** The generate branch: [open(dest_path, "w")] raises when the file name
    made of the number is no name of a directory entry. *)
Definition generate (a : app) (number record_type folder : string) : app * ending :=
  let filename := "patient_record_" +:+ number +:+ ".html" in
  let dest_path := Py.path_join folder filename in
  if Py.valid_name filename
  then register a (<[dest_path := html_content]> (disk a))
                number record_type filename dest_path (Generated filename)
  else (a, Raised).

(** The upload branch: [shutil.copy] raises when the source is missing,
    when its last part is no name of a directory entry, and when source
    and destination are the same file. *)
Definition upload (a : app) (number record_type folder : string) (d : dialogs)
  : app * ending :=
  let file_path := ask_file d in
  if String.eqb file_path EmptyString then (a, Returned)
  else
    let filename := basename file_path in
    let dest_path := Py.path_join folder filename in
    match disk a !! file_path with
    | Some content =>
        if negb (Py.valid_name filename) || String.eqb file_path dest_path
        then (a, Raised)
        else register a (<[dest_path := content]> (disk a))
                      number record_type filename dest_path Added
    | None => (a, Raised)
    end.

(** [add_record] of version 1.4.4. *)
Definition add_record (a : app) (d : dialogs) : app * ending :=
  match ask_number d with
  | None => (a, Returned)
  | Some number =>
      if String.eqb number EmptyString then (a, Returned)
      else
        match ask_type d with
        | None => (a, InvalidType)
        | Some type_choice =>
            match folder_of type_choice FOLDERS with
            | None => (a, InvalidType)
            | Some folder =>
                if String.eqb type_choice "Record" && ask_generate d
                then generate a number type_choice folder
                else upload a number type_choice folder d
            end
        end
  end.

(** The texts [add_record] hands to [save_record_to_excel] for the
    answers [d], when it gets that far. *)
Definition handed_over (d : dialogs) : list string :=
  match ask_number d, ask_type d with
  | Some number, Some type_choice =>
      if in_folders type_choice then
        [number; type_choice;
         if String.eqb type_choice "Record" && ask_generate d
         then "patient_record_" +:+ number +:+ ".html"
         else basename (ask_file d)]
      else []
  | _, _ => []
  end.

(** The program after [records = load_records()] at start-up. *)
Definition start (st : option worksheet) (files : gmap string string) : option app :=
  r ← load_records st;
  Some {| sheet := r.1; records := r.2; disk := files |}.


(** The dictionary in memory is what a restart would load. *)
Definition in_sync (a : app) : Prop :=
  sheet a ≠ Some [] ∧ load_records (sheet a) = Some (sheet a, records a).

End Gui.
End Gui.

(** ** Inputs for the runs *)

(** A directory with the records 3, 7 and 1. *)
Definition three_records : gmap string value :=
  {[Streamlit.record_path "0003" := VDict [];
    Streamlit.record_path "0007" := VDict [];
    Streamlit.record_path "0001" := VDict []]}.

(** A directory with the records [a.b] and [a]. *)
Definition dotted_records : gmap string value :=
  {[Streamlit.record_path "a.b" := VDict [("Patient Name", VStr "Ann")];
    Streamlit.record_path "a" := VDict [("Patient Name", VStr "Al")]]}.

(** A credential file from before the digests: Nurse in two spellings,
    the first a bare text, the second a dictionary. *)
Definition legacy_users : dict :=
  [("Nurse", VStr "letmein"); ("nurse", VDict [("password", VStr "s3cret")])].

(** The scanner with one entry, its file on disk and a file to upload. *)
Definition one_entry_sheet : Scanner.worksheet :=
  [Scanner.header; [VStr "1042"; VStr "Med"; VStr "chart.pdf"]].

Definition one_entry_app : Gui.app := {|
  Gui.sheet := Some one_entry_sheet;
  Gui.records := {["1042" := "Meds/chart.pdf"]};
  Gui.disk := {["Meds/chart.pdf" := "chart"; "/home/ward/scan.png" := "scan"]}
|}.

Definition upload_scan : Gui.dialogs := {|
  Gui.ask_number := Some "2001"; Gui.ask_type := Some "Record";
  Gui.ask_generate := false; Gui.ask_file := "/home/ward/scan.png"
|}.

Definition generate_padded : Gui.dialogs := {|
  Gui.ask_number := Some " 2002"; Gui.ask_type := Some "Record";
  Gui.ask_generate := true; Gui.ask_file := ""
|}.

Definition wrong_type : Gui.dialogs := {|
  Gui.ask_number := Some "2003"; Gui.ask_type := Some "record";
  Gui.ask_generate := false; Gui.ask_file := "/home/ward/scan.png"
|}.
(** * Properties *)

(** ** The built-ins on the texts the programs meet *)

Example py_split :
  Py.split "_"%char "record_a_b.json" = ["record"; "a"; "b.json"].
Proof. reflexivity. Qed.

Example py_replace :
  Py.replace ".json" "" (Py.replace "record_" "" "record_0007.json") = "0007".
Proof. reflexivity. Qed.

Example py_replace2 :
  Py.replace "aa" "b" "aaaaa" = "bba".
Proof. reflexivity. Qed.

Example py_replace3 :
  Py.replace "" "-" "abc" = "-a-b-c-".
Proof. reflexivity. Qed.

Example py_int :
  Py.int " -1_000 " = Some (-1000)%Z.
Proof. reflexivity. Qed.

Example py_int2 :
  Py.int "1__0" = None.
Proof. reflexivity. Qed.

Example py_int3 :
  Py.int "0007" = Some 7%Z.
Proof. reflexivity. Qed.

Example py_int4 :
  Py.int "" = None.
Proof. reflexivity. Qed.

Example py_int5 :
  Py.int "1_" = None.
Proof. reflexivity. Qed.

Example py_zfill :
  Py.zfill 4 (Py.str_of_int (-4)) = "-004".
Proof. reflexivity. Qed.

Example py_zfill2 :
  Py.zfill 4 (Py.str_of_int 12345) = "12345".
Proof. reflexivity. Qed.

Example py_strip :
  Py.strip "  Ad min  " = "Ad min".
Proof. reflexivity. Qed.

Example py_lower :
  Py.lower "AdMin_9Z@[" = "admin_9z@[".
Proof. reflexivity. Qed.

(** The text of the code points 0xc9, M, I, L, E, 0xd7, 0xdf. *)
Example py_lower2 :
  Py.lower (String "201" ("MILE" +:+ String "215" (String "223" "")))
  = String "233" ("mile" +:+ String "215" (String "223" "")).
Proof. reflexivity. Qed.

(** A no-break space and a next-line character around a name. *)
Example py_strip2 :
  Py.strip (String "160" ("admin" +:+ String "133" "")) = "admin".
Proof. reflexivity. Qed.

(** [int] skips the no-break space, and not the separator 0x1c that
    [strip] removes. *)
Example py_int6 :
  Py.int (String "160" "5") = Some 5%Z ∧ Py.int (String "028" "5") = None ∧
  Py.strip (String "028" "5") = "5".
Proof. repeat split. Qed.

Example py_join :
  Py.path_join "Records" "record_1.json" = "Records/record_1.json".
Proof. reflexivity. Qed.

Example py_join2 :
  Py.path_join "" "x.html" = "x.html".
Proof. reflexivity. Qed.

Example py_join3 :
  Py.path_join "Records" "/x.html" = "/x.html".
Proof. reflexivity. Qed.

(** ** Facts about the built-ins *)

Section PyFacts.
Import Py.

Lemma dict_get_set_eq k v d : dict_get k (dict_set k v d) = Some v.
Proof.
  induction d as [|[k' v'] d IH]; simpl.
  - by rewrite String.eqb_refl.
  - destruct (String.eqb k k') eqn:E; simpl; rewrite E; [done | apply IH].
Qed.


Lemma append_cons c (s t : string) : String c s +:+ t = String c (s +:+ t).
Proof. reflexivity. Qed.

Lemma append_nil_r (s : string) : s +:+ "" = s.
Proof. induction s as [|c s IH]; [done | by rewrite append_cons, IH]. Qed.

Lemma length_append (s t : string) :
  String.length (s +:+ t) = String.length s + String.length t.
Proof. induction s as [|c s IH]; [done | by rewrite append_cons; simpl; rewrite IH]. Qed.

Lemma prefix_append p : ∀ s, String.prefix p s = true → ∃ r, s = p +:+ r.
Proof.
  induction p as [|a p IH]; intros s Hp; [by exists s|].
  destruct s as [|b s]; [done|]. simpl in Hp.
  destruct (ascii_dec a b) as [->|]; [|done].
  destruct (IH s Hp) as [r ->]. by exists r.
Qed.

Lemma startswith_append p r : startswith p (p +:+ r) = true.
Proof.
  unfold startswith. induction p as [|a p IH]; [by destruct r|].
  rewrite append_cons. simpl. by destruct (ascii_dec a a).
Qed.

Lemma split_before c s : ∃ ps, split c s = before c s :: ps.
Proof.
  induction s as [|a s [ps IH]]; simpl; [by eexists|].
  destruct (Ascii.eqb a c); [by eexists|]. rewrite IH. by eexists.
Qed.

Lemma before_plain c s : contains c s = false → before c s = s.
Proof.
  induction s as [|a s IH]; simpl; [done|].
  destruct (Ascii.eqb a c); [done|]. intros Hs. by rewrite IH.
Qed.

Lemma before_append_plain c s t :
  contains c s = false → before c (s +:+ t) = s +:+ before c t.
Proof.
  induction s as [|a s IH]; [done|]. rewrite !append_cons. simpl.
  destruct (Ascii.eqb a c); [done|]. intros Hs. by rewrite IH.
Qed.

Lemma before_append_stop c s t :
  contains c s = true → before c (s +:+ t) = before c s.
Proof.
  induction s as [|a s IH]; [done|]. rewrite append_cons. simpl.
  destruct (Ascii.eqb a c); [done|]. intros Hs. by rewrite IH.
Qed.

(** [before c s] starts [s], and what follows is empty only if [c] does
    not occur. *)
Lemma before_split c s :
  ∃ rest, s = before c s +:+ rest ∧ (contains c s = true → rest ≠ "").
Proof.
  induction s as [|a s (rest & IH & Hrest)]; simpl; [by exists ""|].
  destruct (Ascii.eqb a c); simpl.
  - by exists (String a s).
  - exists rest. rewrite append_cons, <-IH. done.
Qed.

Lemma contains_before c c' s : contains c s = false → contains c (before c' s) = false.
Proof.
  induction s as [|a s IH]; simpl; [done|].
  intros [Ha Hs]%orb_false_elim. destruct (Ascii.eqb a c'); simpl; [done|].
  by rewrite Ha, IH.
Qed.

Lemma contains_append c s t : contains c (s +:+ t) = contains c s || contains c t.
Proof.
  induction s as [|a s IH]; [done|]. rewrite append_cons. simpl.
  by rewrite IH, orb_assoc.
Qed.

Lemma append_assoc (s t u : string) : (s +:+ t) +:+ u = s +:+ t +:+ u.
Proof. induction s as [|c s IH]; [done | by rewrite !append_cons, IH]. Qed.



Lemma isspace_lower_char c : isspace (lower_char c) = isspace c.
Proof. by destruct c as [[] [] [] [] [] [] [] []]. Qed.

Lemma lstrip_lower s : lstrip (lower s) = lower (lstrip s).
Proof.
  induction s as [|c s IH]; simpl; [done|].
  rewrite isspace_lower_char. by destruct (isspace c).
Qed.

Lemma rstrip_lower s : rstrip (lower s) = lower (rstrip s).
Proof.
  induction s as [|c s IH]; simpl; [done|].
  rewrite IH, isspace_lower_char.
  destruct (rstrip s); simpl; [by destruct (isspace c) | done].
Qed.

Lemma strip_lower s : strip (lower s) = lower (strip s).
Proof. unfold strip. by rewrite lstrip_lower, rstrip_lower. Qed.

Lemma dict_get_elem k v d : dict_get k d = Some v → (k, v) ∈ d.
Proof.
  induction d as [|[k' v'] d IH]; simpl; [done|].
  destruct (String.eqb_spec k k') as [->|_].
  - intros [= ->]. by left.
  - intros Hd. right. by apply IH.
Qed.

Lemma Forall2_elem_r {A B} (R : A → B → Prop) l k y :
  Forall2 R l k → y ∈ k → ∃ x, x ∈ l ∧ R x y.
Proof.
  induction 1 as [|x y' l k HR _ IH]; [by intros ?%elem_of_nil|].
  intros [->|Hy]%elem_of_cons; [exists x; split; [by left | done]|].
  destruct (IH Hy) as (x' & Hx' & HR'). exists x'. split; [by right | done].
Qed.

Lemma length_zeros n : String.length (zeros n) = n.
Proof. induction n as [|n IH]; simpl; [done | by rewrite IH]. Qed.

Lemma length_zfill w s : String.length (zfill w s) = Nat.max w (String.length s).
Proof.
  unfold zfill. destruct (Nat.leb_spec w (String.length s)); [lia|].
  destruct s as [|c r]; [rewrite length_zeros; simpl; lia|].
  destruct (_ || _); simpl in *; rewrite length_append, length_zeros; simpl; lia.
Qed.

Lemma pretty_N_go_unsigned x : ∀ s, unsigned s → unsigned (pretty_N_go x s).
Proof.
  induction (N.lt_wf_0 x) as [x _ IH]; intros s Hs.
  assert (x = 0 ∨ 0 < x)%N as [->|Hx] by lia; [done|].
  rewrite pretty_N_go_step by done. apply IH; [by apply N.div_lt|].
  unfold pretty_N_char. by repeat case_match.
Qed.

Lemma str_of_int_unsigned z : (0 ≤ z)%Z → unsigned (str_of_int z).
Proof.
  unfold str_of_int, pretty, pretty_Z. destruct z as [|p|p]; [done| |lia].
  intros _. unfold pretty, pretty_positive, pretty, pretty_N.
  case_decide; [done|]. by apply pretty_N_go_unsigned.
Qed.

Lemma zfill_unsigned w s : unsigned s → zfill w s = zeros (w - String.length s) +:+ s.
Proof.
  intros Hs. unfold zfill. destruct (Nat.leb_spec w (String.length s)) as [Hle|Hlt].
  - by replace (w - String.length s) with 0 by lia.
  - destruct s as [|c r]; simpl in *.
    + replace (w - 0) with w by lia. by rewrite append_nil_r.
    + destruct Hs as [Hp Hm].
      apply Ascii.eqb_neq in Hp, Hm. by rewrite Hp, Hm.
Qed.

Lemma foldl_max_spec xs : ∀ x : Z,
  foldl Z.max x xs ∈ x :: xs ∧ Forall (λ y, (y ≤ foldl Z.max x xs)%Z) (x :: xs).
Proof.
  induction xs as [|y xs IH]; intros x; simpl.
  - split; [by left | by constructor].
  - destruct (IH (Z.max x y)) as [Hin Hall].
    apply Forall_cons in Hall as [Hm Hall]. split.
    + apply elem_of_cons in Hin as [->|Hin]; [| by do 2 right].
      destruct (Z.max_spec x y) as [[_ ->]|[_ ->]]; [right|]; by left.
    + constructor; [lia|]. constructor; [lia | done].
Qed.

End PyFacts.

(** ** streamlit_app.py: storage *)

Section StoreFacts.
Context `{Extern}.
Import Py Streamlit.

(** What the proofs need of the libraries. *)
Hypothesis loads_dumps : ∀ v, json_loads (json_dumps v) = Some v.
Hypothesis digest_length : ∀ s, String.length (sha256_hexdigest s) = 64.

Lemma record_path_eq rid : record_path rid = "Records/record_" +:+ rid +:+ ".json".
Proof. reflexivity. Qed.

(** The file name of a record is a name of a directory entry unless the
    id has a slash or the character 0. *)
Lemma valid_record_file rid :
  valid_name (record_file rid) = negb (contains "/" rid) && negb (contains "000" rid).
Proof.
  unfold valid_name, record_file.
  change ("record_" +:+ rid +:+ ".json") with (String "r" ("ecord_" +:+ rid +:+ ".json")).
  replace (contains "/" (String "r" ("ecord_" +:+ rid +:+ ".json")))
    with (contains "/" rid).
  2:{ change (String "r" ("ecord_" +:+ rid +:+ ".json")) with ("record_" +:+ rid +:+ ".json").
      rewrite !contains_append. simpl. by rewrite orb_false_r. }
  replace (contains "000" (String "r" ("ecord_" +:+ rid +:+ ".json")))
    with (contains "000" rid).
  2:{ change (String "r" ("ecord_" +:+ rid +:+ ".json")) with ("record_" +:+ rid +:+ ".json").
      rewrite !contains_append. simpl. by rewrite orb_false_r. }
  assert (Hdot : ∀ t, String.eqb (String "r" t) "." = false) by done.
  assert (Hdots : ∀ t, String.eqb (String "r" t) ".." = false) by done.
  by rewrite Hdot, Hdots.
Qed.

Lemma save_patient_Some (f f' : fs) rid doc :
  save_patient f rid doc = Some f' ↔
  valid_name (record_file rid) = true ∧ f' = <[record_path rid := json_dumps doc]> f.
Proof.
  unfold save_patient, write_at.
  change (path_join RECORDS_DIR (record_file rid)) with (record_path rid).
  destruct (valid_name (record_file rid)); split.
  - by intros [= <-].
  - by intros [_ ->].
  - done.
  - by intros [? _].
Qed.

Lemma load_patient_valid (f : fs) rid :
  valid_name (record_file rid) = true →
  load_patient f rid = match f !! record_path rid with
                       | Some t => json_loads t
                       | None => Some (VDict [])
                       end.
Proof. intros Hv. unfold load_patient, file_at. by rewrite Hv. Qed.

Lemma load_patient_absent (f : fs) rid :
  f !! record_path rid = None → load_patient f rid = Some (VDict []).
Proof.
  intros Hnone. unfold load_patient, file_at.
  change (path_join RECORDS_DIR (record_file rid)) with (record_path rid).
  rewrite Hnone. by destruct (valid_name _).
Qed.

Lemma load_patient_invalid (f : fs) rid :
  valid_name (record_file rid) = false → load_patient f rid = Some (VDict []).
Proof. intros Hv. unfold load_patient, file_at. by rewrite Hv. Qed.

Lemma delete_record_Some (f f' : fs) rid :
  delete_record f rid = Some f' ↔
  valid_name (record_file rid) = true ∧ is_Some (f !! record_path rid) ∧
  f' = delete (record_path rid) f.
Proof.
  unfold delete_record, remove_at, file_at.
  change (path_join RECORDS_DIR (record_file rid)) with (record_path rid).
  destruct (valid_name (record_file rid)).
  - destruct (f !! record_path rid) as [t|] eqn:Hf; split.
    + intros [= <-]. eauto.
    + by intros (_ & _ & ->).
    + done.
    + by intros (_ & [? ?] & _).
  - split; [done | by intros [? _]].
Qed.

Lemma load_saved (f f' : fs) (rid : string) (doc : value) :
  save_patient f rid doc = Some f' → load_patient f' rid = Some doc.
Proof.
  intros [Hv ->]%save_patient_Some.
  rewrite load_patient_valid, lookup_insert_eq by done. apply loads_dumps.
Qed.

(** C1, as the code has it: where saving under an id does not raise, the
    record loaded under that id right after is the record saved, if json
    reads it back as it wrote it, whether the id had a file before or
    not; and saving raises under an id with a slash or the character 0,
    which loads as the empty document. *)
Theorem save_then_load :
  (∀ (f f' : fs) (rid : string) (doc : value),
     save_patient f rid doc = Some f' →
     json_loads (json_dumps doc) = Some doc →
     load_patient f' rid = Some doc ∧
     (f !! record_path rid = None → load_patient f rid = Some (VDict []))) ∧
  (∀ (f : fs) (rid : string) (doc : value),
     contains "/" rid = true ∨ contains "000" rid = true →
     save_patient f rid doc = None ∧ load_patient f rid = Some (VDict [])).
Proof.
  split.
  - intros f f' rid doc [Hv ->]%save_patient_Some Hround. split.
    + by rewrite load_patient_valid, lookup_insert_eq by done.
    + apply load_patient_absent.
  - intros f rid doc Hbad.
    assert (Hv : valid_name (record_file rid) = false).
    { rewrite valid_record_file. destruct Hbad as [-> | ->]; [done|].
      by rewrite andb_false_r. }
    split; [|by apply load_patient_invalid].
    unfold save_patient, write_at. by rewrite Hv.
Qed.

(** C3: the generated id is the decimal text of the largest existing id
    plus one, filled with zeros to four characters at least; it is [0001]
    when there is no id yet and [0008] after 3, 7 and 1. *)
Theorem next_json_id_spec :
  next_json_id [] = "0001" ∧
  next_json_id [3; 7; 1]%Z = "0008" ∧
  (∀ x xs, ∃ m, Py.max (x :: xs) = Some m ∧ m ∈ x :: xs ∧
     Forall (λ y, (y ≤ m)%Z) (x :: xs) ∧
     next_json_id (x :: xs) = zfill 4 (str_of_int (m + 1))) ∧
  (∀ ids m, Py.max ids = Some m → (0 ≤ m)%Z →
     let s := str_of_int (m + 1) in
     next_json_id ids = zeros (4 - String.length s) +:+ s ∧
     String.length (next_json_id ids) = Nat.max 4 (String.length s)).
Proof.
  split; [reflexivity|]. split; [reflexivity|]. split.
  - intros x xs. exists (foldl Z.max x xs).
    destruct (foldl_max_spec xs x) as [Hin Hall]. done.
  - intros ids m Hm Hpos s. unfold next_json_id. rewrite Hm. fold s. split.
    + apply zfill_unsigned, str_of_int_unsigned. lia.
    + apply length_zfill.
Qed.

(** The readings a stored record carries, as the Vitals tab reads them. *)
Lemma vitals_of_compile_record rid vs fm :
  vitals_of (compile_record rid vs fm) = Some (vs ++ [reading fm])%list.
Proof. reflexivity. Qed.

(** What a run of Save Record that went through has done. *)
Lemma save_record_Some (f f' : fs) rec_id fm rid :
  save_record f rec_id fm = Some (f', rid) →
  ∃ data vs,
    (if String.eqb rec_id "" then Some (VDict []) else load_patient f rec_id) = Some data ∧
    draw data = Some () ∧
    (if String.eqb rec_id "" then next_json_id <$> existing_ids f else Some rec_id) = Some rid ∧
    vitals_of data = Some vs ∧
    save_patient f rid (compile_record rid vs fm) = Some f'.
Proof.
  unfold save_record. intros Hsave.
  destruct (if String.eqb rec_id "" then Some (VDict []) else load_patient f rec_id)
    as [data|] eqn:Hdata; [simpl in Hsave|done].
  destruct (draw data) as [[]|] eqn:Hdraw; [simpl in Hsave|done].
  destruct (if String.eqb rec_id "" then next_json_id <$> existing_ids f else Some rec_id)
    as [rid'|] eqn:Hrid; [simpl in Hsave|done].
  destruct (vitals_of data) as [vs|] eqn:Hvs; [simpl in Hsave|done].
  destruct (save_patient f rid' (compile_record rid' vs fm)) as [f1|] eqn:Hf1;
    [simpl in Hsave|done].
  injection Hsave as <- <-. by exists data, vs.
Qed.

Lemma save_record_named (f f' : fs) rec_id fm rid :
  rec_id ≠ "" → save_record f rec_id fm = Some (f', rid) →
  rid = rec_id ∧
  ∃ data vs, load_patient f rec_id = Some data ∧ vitals_of data = Some vs ∧
             save_patient f rec_id (compile_record rec_id vs fm) = Some f'.
Proof.
  intros Hne (data & vs & Hdata & _ & Hrid & Hvs & Hsave)%save_record_Some.
  apply String.eqb_neq in Hne. rewrite Hne in Hdata, Hrid.
  injection Hrid as <-. split; [done|]. by exists data, vs.
Qed.

Lemma save_cycles_from (fms : list form) : ∀ (f f' : fs) rid vs,
  rid ≠ "" → save_cycles f rid fms = Some f' →
  (load_patient f rid ≫= vitals_of) = Some vs →
  (load_patient f' rid ≫= vitals_of) = Some (vs ++ (reading <$> fms))%list.
Proof.
  induction fms as [|fm fms IH]; intros f f' rid vs Hne Hrun Hvs; simpl in Hrun.
  - injection Hrun as <-. by rewrite app_nil_r.
  - destruct (save_record f rid fm) as [[f1 r]|] eqn:Hsave; [simpl in Hrun|done].
    destruct (save_record_named f f1 rid fm r Hne Hsave)
      as (-> & data & vs' & Hload & Hvs' & Hf1).
    rewrite Hload in Hvs. simpl in Hvs. rewrite Hvs' in Hvs. injection Hvs as ->.
    rewrite (IH f1 f' rid (vs ++ [reading fm])%list Hne Hrun).
    + by rewrite <-app_assoc.
    + by rewrite (load_saved f f1 rid _ Hf1).
Qed.

(** C2: a save cycle that goes through adds one reading behind those the
    record holds, and [N] cycles from an absent record leave exactly the
    [N] readings, oldest first. *)
Theorem vitals_never_truncated :
  (∀ (f f' : fs) rid r fm,
     rid ≠ "" → save_record f rid fm = Some (f', r) →
     ∃ vs, (load_patient f rid ≫= vitals_of) = Some vs ∧
           (load_patient f' rid ≫= vitals_of) = Some (vs ++ [reading fm])%list) ∧
  (∀ (f f' : fs) rid fms,
     rid ≠ "" → f !! record_path rid = None → save_cycles f rid fms = Some f' →
     ∃ doc vs, load_patient f' rid = Some doc ∧ vitals_of doc = Some vs ∧
       vs = reading <$> fms ∧ length vs = length fms).
Proof.
  split.
  - intros f f' rid r fm Hne Hsave.
    destruct (save_record_named f f' rid fm r Hne Hsave)
      as (-> & data & vs & Hload & Hvs & Hf').
    exists vs. rewrite Hload. split; [done|].
    by rewrite (load_saved f f' rid _ Hf').
  - intros f f' rid fms Hne Hnone Hrun.
    pose proof (save_cycles_from fms f f' rid [] Hne Hrun) as Hres.
    rewrite (load_patient_absent f rid Hnone) in Hres. specialize (Hres eq_refl).
    destruct (load_patient f' rid) as [doc|] eqn:Hload; [simpl in Hres|done].
    exists doc, (reading <$> fms). by rewrite length_fmap.
Qed.

(** The id Save Record saves under is not empty, and the document it
    writes is the compiled record. *)
Lemma save_record_result (f f' : fs) rec_id fm rid :
  save_record f rec_id fm = Some (f', rid) →
  rid ≠ "" ∧ ∃ vs, save_patient f rid (compile_record rid vs fm) = Some f'.
Proof.
  intros (data & vs & _ & _ & Hrid & _ & Hsave)%save_record_Some.
  split; [|by exists vs].
  destruct (String.eqb_spec rec_id "") as [->|Hne].
  - destruct (existing_ids f) as [ids|]; [simpl in Hrid|done]. injection Hrid as <-.
    intros Heq. apply (f_equal String.length) in Heq.
    unfold next_json_id in Heq. rewrite length_zfill in Heq. simpl in Heq. lia.
  - by injection Hrid as <-.
Qed.

(** C9: whatever the record loaded before held, the document the Save
    Record handler writes carries the id of its file as Patient ID; of
    the record loaded before, only the readings enter it. *)
Theorem patient_id_is_storage_key :
  (∀ (f f' : fs) rec_id rid fm,
     save_record f rec_id fm = Some (f', rid) →
     (rec_id ≠ "" → rid = rec_id) ∧
     ∃ d, f' !! record_path rid = Some (json_dumps (VDict d)) ∧
          load_patient f' rid = Some (VDict d) ∧
          dict_get "Patient ID" d = Some (VStr rid)) ∧
  (∀ (f f' : fs) rec_id rid fm prev,
     rec_id ≠ "" → load_patient f rec_id = Some prev →
     save_record f rec_id fm = Some (f', rid) →
     ∃ vs, vitals_of prev = Some vs ∧
           load_patient f' rec_id = Some (compile_record rec_id vs fm)).
Proof.
  split.
  - intros f f' rec_id rid fm Hsave. split.
    + intros Hne. by destruct (save_record_named f f' rec_id fm rid Hne Hsave).
    + destruct (save_record_result f f' rec_id fm rid Hsave) as (_ & vs & Hf').
      pose proof (load_saved f f' rid _ Hf') as Hload.
      apply save_patient_Some in Hf' as [_ ->].
      eexists. split; [apply lookup_insert_eq|]. split; [exact Hload | reflexivity].
  - intros f f' rec_id rid fm prev Hne Hprev Hsave.
    destruct (save_record_named f f' rec_id fm rid Hne Hsave)
      as (-> & data & vs & Hload & Hvs & Hf').
    rewrite Hprev in Hload. injection Hload as <-.
    exists vs. split; [done|]. by apply (load_saved f f' rec_id).
Qed.

(** *** The listing of the All Records page *)

Lemma chop_prefix_Some p : ∀ x n, chop_prefix p x = Some n ↔ x = p +:+ n.
Proof.
  induction p as [|a p IH]; intros x n; simpl.
  - split; [by intros [= ->] | by intros ->].
  - destruct x as [|b x]; [done|]. rewrite append_cons.
    destruct (Ascii.eqb_spec a b) as [->|Hne].
    + rewrite IH. split; [by intros -> | by intros [= ->]].
    + split; [done | by intros [= ? ?]].
Qed.

(** The directory lists the names of directory entries bound in it. *)
Lemma elem_of_listdir dir (f : fs) n :
  n ∈ listdir dir f ↔ valid_name n = true ∧ is_Some (f !! (dir +:+ "/" +:+ n)).
Proof.
  unfold listdir. rewrite list_elem_of_filter, list_elem_of_omap.
  split; intros [Hv Hn]; (split; [done|]).
  - destruct Hn as (x & Hx & Hchop). apply chop_prefix_Some in Hchop as ->.
    apply list_elem_of_fmap in Hx as ([k t] & Hk & Hkt). simpl in Hk. subst k.
    apply elem_of_map_to_list in Hkt. rewrite append_assoc in Hkt. eauto.
  - destruct Hn as [t Ht]. exists (dir +:+ "/" +:+ n). split.
    + apply list_elem_of_fmap. exists (dir +:+ "/" +:+ n, t).
      split; [done | by apply elem_of_map_to_list].
    + apply chop_prefix_Some. by rewrite append_assoc.
Qed.

Lemma elem_of_record_files (f : fs) n :
  n ∈ record_files f ↔
  ∃ r, n = "record_" +:+ r ∧ valid_name n = true ∧
       is_Some (f !! ("Records/record_" +:+ r)).
Proof.
  unfold record_files. rewrite list_elem_of_filter, elem_of_listdir. split.
  - intros (Hp & Hv & Hf). apply prefix_append in Hp as [r ->]. by exists r.
  - intros (r & -> & Hv & Hf). split; [apply startswith_append | done].
Qed.

Lemma rid_of_record_name r :
  rid_of_filename ("record_" +:+ r) = Some (before "." (before "_" r)).
Proof.
  unfold rid_of_filename.
  change (split "_" ("record_" +:+ r)) with ("record" :: split "_" r).
  destruct (split_before "_" r) as [ps ->]. simpl.
  by destruct (split_before "." (before "_" r)) as [qs ->].
Qed.

Lemma rid_of_record_file rid :
  rid_of_filename (record_file rid) = Some (before "." (before "_" (rid +:+ ".json"))).
Proof. apply rid_of_record_name. Qed.

Lemma before_record_plain rid :
  plain_id rid → before "." (before "_" (rid +:+ ".json")) = rid.
Proof.
  intros [Hu Hp]. rewrite before_append_plain by done.
  change (before "_" ".json") with ".json".
  rewrite before_append_plain by done. apply append_nil_r.
Qed.

Lemma mapM_total {A B} (g : A → option B) (d : B) (l : list A) :
  Forall (λ x, is_Some (g x)) l → mapM g l = Some ((λ x, default d (g x)) <$> l).
Proof.
  intros Hall. apply mapM_Some_2.
  induction Hall as [|x l [y Hy] _ IH]; simpl; constructor; [by rewrite Hy | done].
Qed.

(** The page lists exactly the ids cut out of the names of the record
    files, and listing never fails. *)
Lemma list_ids_spec (f : fs) :
  ∃ ids, list_ids f = Some ids ∧
    ∀ rid, rid ∈ ids ↔
      ∃ r, valid_name ("record_" +:+ r) = true ∧
           is_Some (f !! ("Records/record_" +:+ r)) ∧ before "." (before "_" r) = rid.
Proof.
  unfold list_ids. eexists. split.
  - apply (mapM_total _ "").
    apply Forall_forall. intros n Hn.
    rewrite merge_sort_Permutation in Hn.
    apply elem_of_record_files in Hn as (r & -> & _).
    rewrite rid_of_record_name. eauto.
  - intros rid. rewrite list_elem_of_fmap. split.
    + intros (n & -> & Hn). rewrite merge_sort_Permutation in Hn.
      apply elem_of_record_files in Hn as (r & -> & Hv & Hf).
      exists r. by rewrite rid_of_record_name.
    + intros (r & Hv & Hf & <-). exists ("record_" +:+ r). split.
      * by rewrite rid_of_record_name.
      * rewrite merge_sort_Permutation. apply elem_of_record_files. eauto.
Qed.

(** A record that was saved has its file among the record files. *)
Lemma saved_is_listed (f f' : fs) rid doc :
  save_patient f rid doc = Some f' →
  valid_name ("record_" +:+ (rid +:+ ".json")) = true ∧
  is_Some (f' !! ("Records/record_" +:+ (rid +:+ ".json"))).
Proof.
  intros [Hv ->]%save_patient_Some. split; [exact Hv|].
  change ("Records/record_" +:+ (rid +:+ ".json")) with (record_path rid).
  rewrite lookup_insert_eq. eauto.
Qed.

(** C10, as the code has it: the id cut out of a file name is what stands
    between its first and its second underscore, up to the first period.
    It is the id of the record exactly when the id has no underscore and
    no period; such an id is listed once saved; any other id comes back
    cut short. *)
Theorem list_ids_recovers_plain_ids :
  (∀ rid, rid_of_filename (record_file rid) = Some rid ↔ plain_id rid) ∧
  (∀ (f f' : fs) rid doc, plain_id rid → save_patient f rid doc = Some f' →
     ∃ ids, list_ids f' = Some ids ∧ rid ∈ ids) ∧
  (∀ rid, ¬ plain_id rid →
     ∃ r rest, rid_of_filename (record_file rid) = Some r ∧
               rid = r +:+ rest ∧ rest ≠ "" ∧ r ≠ rid) ∧
  (∀ doc, ∃ f' ids, save_patient ∅ "a_b" doc = Some f' ∧
                    list_ids f' = Some ids ∧ "a" ∈ ids ∧ "a_b" ∉ ids) ∧
  (∀ rid, rid_of_filename (record_file rid)
          = Some (before "." (before "_" (rid +:+ ".json")))).
Proof.
  assert (Hcut : ∀ rid, ¬ plain_id rid →
     ∃ rest, rid = before "." (before "_" (rid +:+ ".json")) +:+ rest ∧ rest ≠ "").
  { intros rid Hn. destruct (contains "_" rid) eqn:Hu.
    - rewrite before_append_stop by done.
      destruct (before_split "_" rid) as (r1 & H1 & Hr1).
      destruct (before_split "." (before "_" rid)) as (r2 & H2 & _).
      exists (r2 +:+ r1). split.
      + by rewrite <-append_assoc, <-H2.
      + specialize (Hr1 Hu). destruct r2; [done|by rewrite append_cons].
    - destruct (contains "." rid) eqn:Hp; [|by destruct Hn].
      rewrite before_append_plain by done.
      change (before "_" ".json") with ".json".
      rewrite before_append_stop by done.
      destruct (before_split "." rid) as (r & Hr & Hne). eauto. }
  assert (Hlen : ∀ r rest : string, rest ≠ "" → r ≠ r +:+ rest).
  { intros r rest Hrest Heq. apply (f_equal String.length) in Heq.
    rewrite length_append in Heq. destruct rest; [done|]. simpl in Heq. lia. }
  split; [|split; [|split; [|split]]].
  - intros rid. rewrite rid_of_record_file. split.
    + intros [= Heq]. destruct (contains "_" rid) eqn:Hu.
      { destruct (Hcut rid) as (rest & Hrest & Hne); [by intros [? _]; congruence|].
        rewrite Heq in Hrest. by destruct (Hlen rid rest). }
      destruct (contains "." rid) eqn:Hp; [|done].
      destruct (Hcut rid) as (rest & Hrest & Hne); [by intros [_ ?]; congruence|].
      rewrite Heq in Hrest. by destruct (Hlen rid rest).
    + intros Hplain. by rewrite before_record_plain.
  - intros f f' rid doc Hplain Hsave.
    destruct (list_ids_spec f') as (ids & Hids & Hmem).
    exists ids. split; [done|]. apply Hmem. exists (rid +:+ ".json").
    destruct (saved_is_listed f f' rid doc Hsave) as [Hv Hf].
    split; [done|]. split; [done|]. by apply before_record_plain.
  - intros rid Hn. destruct (Hcut rid Hn) as (rest & Hrest & Hne).
    exists (before "." (before "_" (rid +:+ ".json"))), rest.
    split; [apply rid_of_record_file|]. split; [done|]. split; [done|].
    rewrite Hrest at 2. by apply Hlen.
  - intros doc. eexists.
    destruct (list_ids_spec (<[record_path "a_b" := json_dumps doc]> (∅ : fs)))
      as (ids & Hids & Hmem).
    assert (Hone : ∀ rid, rid ∈ ids ↔ rid = "a").
    { intros rid. rewrite Hmem. split.
      - intros (r & _ & [t Ht] & <-).
        apply lookup_insert_Some in Ht as [[Hk _]|[_ Ht]]; [|by rewrite lookup_empty in Ht].
        rewrite record_path_eq in Hk.
        apply (inj (String.app "Records/record_")) in Hk. by subst r.
      - intros ->. exists "a_b.json". split; [done|]. split; [|done].
        rewrite record_path_eq. rewrite lookup_insert_eq. eauto. }
    exists ids. split; [reflexivity|]. split; [done|]. split; [by apply Hone|].
    intros Hin%Hone. done.
  - apply rid_of_record_file.
Qed.

(** *** The Delete button *)

Lemma delete_saved (f f' : fs) rid doc :
  save_patient f rid doc = Some f' →
  delete_record f' rid = Some (delete (record_path rid) f).
Proof.
  intros [Hv ->]%save_patient_Some. apply delete_record_Some.
  split; [done|]. split; [rewrite lookup_insert_eq; eauto|].
  by rewrite delete_insert_eq.
Qed.

Lemma load_deleted (f : fs) rid :
  load_patient (delete (record_path rid) f) rid = Some (VDict []).
Proof. apply load_patient_absent, lookup_delete_eq. Qed.

Lemma delete_missing (f : fs) rid :
  f !! record_path rid = None → delete_record f rid = None.
Proof.
  intros Hnone. destruct (delete_record f rid) as [f'|] eqn:Hd; [|done].
  apply delete_record_Some in Hd as (_ & [t Ht] & _). congruence.
Qed.

(** Where every record file is named after a plain id, a deleted id is
    no longer listed. *)
Lemma delete_unlists_plain (f f1 : fs) rid doc :
  (∀ r, is_Some (f !! ("Records/record_" +:+ r)) →
        ∃ i, r = i +:+ ".json" ∧ plain_id i) →
  save_patient f rid doc = Some f1 →
  ∃ f' ids, delete_record f1 rid = Some f' ∧
            load_patient f' rid = Some (VDict []) ∧
            list_ids f' = Some ids ∧ rid ∉ ids.
Proof.
  intros Hplain Hsave. rewrite (delete_saved f f1 rid doc Hsave).
  destruct (list_ids_spec (delete (record_path rid) f)) as (ids & Hids & Hmem).
  exists (delete (record_path rid) f), ids.
  split; [done|]. split; [apply load_deleted|]. split; [done|].
  intros (r & _ & [t Ht] & Hcut)%Hmem.
  apply lookup_delete_Some in Ht as [Hne Ht].
  destruct (Hplain r) as (i & -> & Hi); [eauto|].
  rewrite before_record_plain in Hcut by done. subst i.
  by rewrite record_path_eq in Hne.
Qed.

(** ** streamlit_app.py: authentication *)

Lemma length_normal_password s : String.length (normal_password s) = 64.
Proof.
  unfold normal_password, hash_password.
  destruct (Nat.eqb_spec (String.length s) 64); [done | apply digest_length].
Qed.

(** The loop body on an item whose password is text. *)
Lemma normalize_entry_text u info s :
  stored_text info = Some s →
  ∃ d ch, normalize_entry (u, info) = Some ((u, VDict d), ch) ∧
          dict_get "password" d = Some (VStr (normal_password s)).
Proof.
  assert (Hwrap : ∀ t, ∃ d ch,
    (d0 ← as_dict (VDict [("password", VStr t)]);
     pw ← dict_get "password" d0;
     n ← len pw;
     if bool_decide (n ≠ 64)
     then match pw with
          | VStr s0 => Some ((u, VDict (dict_set "password" (VStr (hash_password s0)) d0)), true)
          | _ => None
          end
     else Some ((u, VDict [("password", VStr t)]), true))
    = Some ((u, VDict d), ch) ∧ dict_get "password" d = Some (VStr (normal_password t))).
  { intros t. simpl. unfold normal_password.
    destruct (Nat.eqb_spec (String.length t) 64) as [Heq|Hne].
    - rewrite bool_decide_eq_false_2 by (intros ?; done). eauto.
    - rewrite bool_decide_eq_true_2 by done. eauto. }
  intros Hs. unfold normalize_entry.
  destruct info as [|b|z|x|t|l|d]; simpl in Hs;
    try (injection Hs as <-; exact (Hwrap _)).
  destruct (dict_get "password" d) as [[|?|?|?|t|?|?]|] eqn:Hpw; try done.
  injection Hs as <-. simpl. rewrite Hpw. simpl. unfold normal_password.
  destruct (Nat.eqb_spec (String.length t) 64) as [Heq|Hne].
  - rewrite bool_decide_eq_false_2 by (intros ?; done). eauto.
  - rewrite bool_decide_eq_true_2 by done.
    do 2 eexists. split; [done|]. apply dict_get_set_eq.
Qed.

(** The loop body, whatever the item: when it does not raise, the item
    keeps its key and has a password of length 64. *)
Lemma normalize_entry_length64 u info e ch :
  normalize_entry (u, info) = Some (e, ch) → e.1 = u ∧ length64_entry e.2.
Proof.
  destruct (stored_text info) as [s|] eqn:Hs.
  - destruct (normalize_entry_text u info s Hs) as (d & ch' & -> & Hd).
    intros [= <- <-]. split; [done|]. exists d, (VStr (normal_password s)).
    split; [done|]. split; [done|]. simpl. by rewrite length_normal_password.
  - unfold stored_text in Hs. destruct info as [|b|z|x|t|l|d]; try done.
    unfold normalize_entry. simpl.
    destruct (dict_get "password" d) as [pw|] eqn:Hpw; [simpl|done].
    destruct (len pw) as [n|] eqn:Hn; [simpl|done].
    destruct (decide (n = 64)) as [->|Hne].
    + rewrite bool_decide_eq_false_2 by (intros ?; done).
      intros [= <- <-]. split; [done|]. by exists d, pw.
    + rewrite bool_decide_eq_true_2 by done. by destruct pw.
Qed.



Lemma load_users_seeded (f : fs) :
  f !! USERS_FILE = None →
  load_users f =
    r ← mapM normalize_entry
           [("admin", VDict [("password", VStr (hash_password "haccare"))])];
    Some (if existsb snd r
          then <[USERS_FILE := json_dumps (VDict r.*1)]>
                 (<[USERS_FILE := json_dumps seed_users]> f)
          else <[USERS_FILE := json_dumps seed_users]> f,
          lower_keys r.*1).
Proof.
  intros Hf. unfold load_users. rewrite Hf, lookup_insert_eq. simpl.
  by rewrite loads_dumps.
Qed.

Lemma load_users_from_file (f : fs) t data :
  f !! USERS_FILE = Some t → json_loads t = Some (VDict data) →
  load_users f =
    r ← mapM normalize_entry data;
    Some (if existsb snd r then <[USERS_FILE := json_dumps (VDict r.*1)]> f else f,
          lower_keys r.*1).
Proof.
  intros Hf Ht. unfold load_users. rewrite Hf. simpl. rewrite Hf. simpl.
  by rewrite Ht.
Qed.

(** The first run: the file is written with the one seeded account and
    read back as it is. *)
Lemma load_users_fresh (f : fs) :
  f !! USERS_FILE = None →
  load_users f = Some (<[USERS_FILE := json_dumps seed_users]> f,
                       [("admin", VDict [("password", VStr (hash_password "haccare"))])]).
Proof.
  intros Hnone.
  rewrite (load_users_seeded f Hnone).
  unfold normalize_entry. simpl. unfold hash_password. rewrite digest_length.
  by rewrite bool_decide_eq_false_2 by (intros ?; done).
Qed.

(** A plaintext of exactly 64 characters passes for a digest: it is
    wrapped and kept. *)
Lemma plaintext_of_64_is_kept u s :
  String.length s = 64 →
  normalize_entry (u, VStr s) = Some ((u, VDict [("password", VStr s)]), true).
Proof.
  intros Hlen. unfold normalize_entry. simpl. rewrite Hlen.
  by rewrite bool_decide_eq_false_2 by (intros ?; done).
Qed.

(** C5: the login check lowers and trims the name it is given, and says
    yes exactly when the users hold a record under that name whose
    password is the digest of the password given; on the seeded store
    Admin and ADMIN pass with the default password; a name without record
    is refused. *)
Theorem verify_password_spec :
  (∀ users user pw,
     verify_password users user pw = true ↔
     ∃ rec, dict_get (lower (strip user)) users = Some (VDict rec) ∧
            dict_get "password" rec = Some (VStr (hash_password pw))) ∧
  (∀ users u1 u2 pw,
     lower u1 = lower u2 →
     verify_password users u1 pw = verify_password users u2 pw) ∧
  (∀ f : fs, f !! USERS_FILE = None →
     ∃ f' users, load_users f = Some (f', users) ∧
       verify_password users "Admin" "haccare" = true ∧
       verify_password users "ADMIN" "haccare" = true) ∧
  (∀ users user pw,
     dict_get (lower (strip user)) users = None →
     verify_password users user pw = false).
Proof.
  split; [|split; [|split]].
  - intros users user pw. unfold verify_password. split.
    + destruct (dict_get (lower (strip user)) users) as [[| | | | | |rec]|]; try done.
      destruct (dict_get "password" rec) as [[| | | |s| |]|] eqn:Hpw; try done.
      intros ->%String.eqb_eq. eauto.
    + intros (rec & -> & ->). apply String.eqb_refl.
  - intros users u1 u2 pw Heq. unfold verify_password.
    by rewrite <-!strip_lower, Heq.
  - intros f Hnone. do 2 eexists. split; [by apply load_users_fresh|].
    unfold verify_password. simpl. by rewrite String.eqb_refl.
  - intros users user pw Hnone. unfold verify_password. by rewrite Hnone.
Qed.


(** C7, where the code departs from it: with records [a] and [a_b]
    stored, deleting [a] removes its file and makes it load as the empty
    document, yet the page still lists [a], cut out of the name of the
    file of [a_b]. *)
Theorem deleted_id_still_listed (doc doc' : value) :
  ∃ f0 f1 f' ids,
    save_patient (∅ : fs) "a" doc = Some f0 ∧
    save_patient f0 "a_b" doc' = Some f1 ∧
    delete_record f1 "a" = Some f' ∧
    f' !! record_path "a" = None ∧
    load_patient f' "a" = Some (VDict []) ∧
    list_ids f' = Some ids ∧ "a" ∈ ids.
Proof.
  set (f0 := <[record_path "a" := json_dumps doc]> (∅ : fs)).
  set (f1 := <[record_path "a_b" := json_dumps doc']> f0).
  assert (Hfile : f1 !! record_path "a" = Some (json_dumps doc)).
  { unfold f1, f0. rewrite lookup_insert_ne by done. apply lookup_insert_eq. }
  destruct (list_ids_spec (delete (record_path "a") f1)) as (ids & Hids & Hmem).
  exists f0, f1, (delete (record_path "a") f1), ids.
  split; [reflexivity|]. split; [reflexivity|].
  split; [apply delete_record_Some; eauto|].
  split; [apply lookup_delete_eq|]. split; [apply load_deleted|]. split; [done|].
  apply Hmem. exists "a_b.json". split; [done|]. split; [|done].
  rewrite lookup_delete_ne by done.
  unfold f1. rewrite record_path_eq, lookup_insert_eq. eauto.
Qed.

(** The parts of C7 the code keeps: the file of a saved record is removed
    and the record loads as the empty document; deleting without file
    raises. *)
Lemma delete_removes_file (f f1 : fs) rid doc :
  (save_patient f rid doc = Some f1 →
   ∃ f', delete_record f1 rid = Some f' ∧
         f' !! record_path rid = None ∧ load_patient f' rid = Some (VDict [])) ∧
  (f !! record_path rid = None → delete_record f rid = None).
Proof.
  split; [|apply delete_missing].
  intros Hsave. rewrite (delete_saved f f1 rid doc Hsave). eexists. split; [done|].
  split; [apply lookup_delete_eq | apply load_deleted].
Qed.

End StoreFacts.

(** ** main.py: the spreadsheet index *)

Section IndexFacts.
Context `{Extern}.
Import Py Scanner.

Lemma in_folders_cases t :
  in_folders t = true →
  (t = "Record" ∧ folder_of t FOLDERS = Some "Records") ∨
  (t = "Med" ∧ folder_of t FOLDERS = Some "Meds").
Proof.
  unfold in_folders. simpl.
  destruct (String.eqb_spec t "Record") as [->|_]; [by left|].
  destruct (String.eqb_spec t "Med") as [->|_]; [by right | done].
Qed.

Lemma path_join_empty file : path_join "" file = file.
Proof. unfold path_join. by destruct (startswith "/" file). Qed.

Lemma row_step_app recs row extra x :
  row_step recs row = Some x → row_step recs (row ++ extra) = Some x.
Proof.
  unfold row_step.
  destruct (row !! 0%nat) as [c0|] eqn:H0; [simpl|done].
  rewrite (lookup_app_l_Some _ _ _ _ H0). simpl.
  destruct (row !! 1%nat) as [c1|] eqn:H1; [|by destruct c0].
  rewrite (lookup_app_l_Some _ _ _ _ H1).
  destruct (row !! 2%nat) as [c2|] eqn:H2; [|by destruct c0].
  by rewrite (lookup_app_l_Some _ _ _ _ H2).
Qed.

Lemma pad_mono w w' row : w ≤ w' → ∃ extra, pad w' row = (pad w row ++ extra)%list.
Proof.
  intros Hle. unfold pad. exists (replicate (w' - length row - (w - length row)) VNone).
  rewrite <-app_assoc, <-replicate_add. do 2 f_equal. lia.
Qed.

Lemma scan_rows_pad_mono w w' rows : ∀ recs x,
  w ≤ w' → scan_rows recs (pad w <$> rows) = Some x →
  scan_rows recs (pad w' <$> rows) = Some x.
Proof.
  induction rows as [|row rows IH]; intros recs x Hle; simpl; [done|].
  destruct (row_step recs (pad w row)) as [r|] eqn:Hr; [simpl|done].
  destruct (pad_mono w w' row Hle) as [extra ->].
  rewrite (row_step_app _ _ extra _ Hr). simpl. by apply IH.
Qed.

Lemma scan_rows_app l1 : ∀ recs l2,
  scan_rows recs (l1 ++ l2) = scan_rows recs l1 ≫= λ r, scan_rows r l2.
Proof.
  induction l1 as [|row l1 IH]; intros recs l2; simpl; [done|].
  destruct (row_step recs row); simpl; [apply IH | done].
Qed.

Lemma max_column_snoc ws row :
  max_column ws ≤ max_column (ws ++ [row]) ∧ length row ≤ max_column (ws ++ [row]).
Proof.
  unfold max_column.
  assert (Hmax : max_list (length <$> ws) ≤ max_list (length <$> ws ++ [row]) ∧
                 length row ≤ max_list (length <$> ws ++ [row])).
  { induction ws as [|r ws [IH1 IH2]]; csimpl; lia. }
  lia.
Qed.

Lemma iter_rows_snoc top rows new :
  iter_rows ((top :: rows) ++ [new]) =
  ((pad (max_column ((top :: rows) ++ [new])) <$> rows) ++
   [pad (max_column ((top :: rows) ++ [new])) new])%list.
Proof. unfold iter_rows. csimpl. by rewrite drop_0, fmap_app. Qed.

(** Appending to a sheet that has its top row and loads. *)
Lemma append_then_load
    (st st1 : option worksheet) recs (number record_type filename : string) :
  load_records st = Some (st1, recs) → st ≠ Some [] →
  valid_entry number record_type filename →
  ∃ st2 recs' folder,
    save_record_to_excel st1 number record_type filename = Some st2 ∧
    st2 ≠ Some [] ∧
    load_records st2 = Some (st2, recs') ∧
    ((record_type = "Record" ∧ folder = "Records") ∨
     (record_type = "Med" ∧ folder = "Meds")) ∧
    recs' !! number = Some (folder +:+ "/" +:+ filename) ∧
    ∀ k, k ≠ number → recs' !! k = recs !! k.
Proof.
  intros Hload Hst (Hnum & Htype & Hrel & Hk0 & Hk1 & Hk2).
  unfold load_records in Hload.
  set (ws := match st with None => [header] | Some ws => ws end) in Hload.
  destruct (scan_rows ∅ (iter_rows ws)) as [r|] eqn:Hscan; [simpl in Hload|done].
  injection Hload as <- <-.
  assert (Hws : ∃ top rows, ws = top :: rows).
  { subst ws. destruct st as [[|top rows]|]; [done|by eauto..]. }
  destruct Hws as (top & rows & Hws). clearbody ws. subst ws.
  set (new := [VStr number; VStr record_type; VStr filename]).
  assert (Hfolder : ∃ folder, folder_of record_type FOLDERS = Some folder ∧
     ((record_type = "Record" ∧ folder = "Records") ∨
      (record_type = "Med" ∧ folder = "Meds"))).
  { destruct (in_folders_cases _ Htype) as [[-> ?]|[-> ?]]; eexists; eauto. }
  destruct Hfolder as (folder & Hfolder & Hcases).
  assert (Hjoin : path_join folder filename = folder +:+ "/" +:+ filename).
  { unfold path_join. rewrite Hrel. by destruct Hcases as [[_ ->]|[_ ->]]. }
  exists (Some ((top :: rows) ++ [new])%list), (<[number := folder +:+ "/" +:+ filename]> r), folder.
  split; [unfold save_record_to_excel; simpl; by rewrite Hk0, Hk1, Hk2|].
  split; [done|]. split.
  - unfold load_records. rewrite iter_rows_snoc, scan_rows_app.
    destruct (max_column_snoc (top :: rows) new) as [Hw Hnew].
    rewrite (scan_rows_pad_mono _ _ rows ∅ r Hw Hscan). simpl.
    simpl in Hfolder. rewrite Hfolder. simpl. by rewrite Hjoin.
  - split; [done|]. split; [apply lookup_insert_eq|].
    intros k Hk. by apply lookup_insert_ne.
Qed.

(** Every state of the index the program brings about has its top row
    and loads. *)
Lemma index_state_loads st :
  index_state st → st ≠ Some [] ∧ ∃ recs, load_records st = Some (st, recs).
Proof.
  induction 1 as [|st st' number record_type filename _ [Hne [recs Hload]] Hvalid Hsave].
  - split; [done|]. by exists ∅.
  - destruct (append_then_load st st recs number record_type filename Hload Hne Hvalid)
      as (st2 & recs' & folder & Hsave' & Hne' & Hload' & _).
    rewrite Hsave in Hsave'. injection Hsave' as <-. split; [done|]. eauto.
Qed.

(** C4: on an index that has its top row and loaded at start-up, as every
    index the program brought about does, an entry that [add_record] lets
    through and whose texts the workbook keeps is there at the next load,
    under its number, with the path of its file in the folder of its
    type. *)
Theorem appended_entry_is_loaded :
  (∀ (st st1 : option worksheet) recs (number record_type filename : string),
     load_records st = Some (st1, recs) → st ≠ Some [] →
     valid_entry number record_type filename →
     ∃ st2 recs' folder,
       save_record_to_excel st1 number record_type filename = Some st2 ∧
       load_records st2 = Some (st2, recs') ∧
       ((record_type = "Record" ∧ folder = "Records") ∨
        (record_type = "Med" ∧ folder = "Meds")) ∧
       recs' !! number = Some (folder +:+ "/" +:+ filename) ∧
       ∀ k, k ≠ number → recs' !! k = recs !! k) ∧
  (∀ (st : option worksheet) (number record_type filename : string),
     index_state st → valid_entry number record_type filename →
     ∃ st2 recs' folder,
       save_record_to_excel st number record_type filename = Some st2 ∧
       load_records st2 = Some (st2, recs') ∧
       ((record_type = "Record" ∧ folder = "Records") ∨
        (record_type = "Med" ∧ folder = "Meds")) ∧
       recs' !! number = Some (folder +:+ "/" +:+ filename)).
Proof.
  split.
  - intros st st1 recs number record_type filename Hload Hne Hvalid.
    destruct (append_then_load st st1 recs number record_type filename Hload Hne Hvalid)
      as (st2 & recs' & folder & ? & _ & ? & ? & ? & ?).
    by exists st2, recs', folder.
  - intros st number record_type filename Hst Hvalid.
    destruct (index_state_loads st Hst) as [Hne [recs Hload]].
    destruct (append_then_load st st recs number record_type filename Hload Hne Hvalid)
      as (st2 & recs' & folder & ? & _ & ? & ? & ? & _).
    by exists st2, recs', folder.
Qed.

(** C6, as the code has it: a row without number leaves the records as
    they are; a row with a number, a type that is neither Record nor Med
    and a file cell holding text is recorded under its number with the
    bare file name as path. *)
Theorem row_without_number_or_folder :
  (∀ recs row, row !! 0%nat = Some VNone → row_step recs row = Some recs) ∧
  (∀ recs row rest, row !! 0%nat = Some VNone →
     scan_rows recs (row :: rest) = scan_rows recs rest) ∧
  (∀ recs row c0 c1 file,
     row !! 0%nat = Some c0 → c0 ≠ VNone →
     row !! 1%nat = Some c1 → c1 ≠ VStr "Record" → c1 ≠ VStr "Med" →
     row !! 2%nat = Some (VStr file) →
     folders_get c1 "" = "" ∧ path_join "" file = file ∧
     row_step recs row = Some (<[Py.str c0 := file]> recs)).
Proof.
  split; [|split].
  - intros recs row H0. unfold row_step. by rewrite H0.
  - intros recs row rest H0. simpl. unfold row_step. by rewrite H0.
  - intros recs row c0 c1 file H0 Hc0 H1 Hrec Hmed H2.
    assert (Hfolder : folders_get c1 "" = "").
    { destruct c1 as [| | | |t| |]; try done. unfold folders_get. simpl.
      destruct (String.eqb_spec t "Record") as [->|_]; [done|].
      by destruct (String.eqb_spec t "Med") as [->|_]. }
    split; [done|]. split; [apply path_join_empty|].
    unfold row_step. rewrite H0. simpl. rewrite H1. simpl. rewrite H2. simpl.
    rewrite Hfolder, path_join_empty. by destruct c0.
Qed.

(** A row with a number whose file cell holds no text stops the load,
    whatever its type. *)
Lemma row_without_file recs row c0 :
  row !! 0%nat = Some c0 → c0 ≠ VNone → (∀ s, row !! 2%nat ≠ Some (VStr s)) →
  row_step recs row = None.
Proof.
  intros H0 Hc0 H2. unfold row_step. rewrite H0. simpl.
  destruct (row !! 1%nat) as [c1|]; [simpl|by destruct c0].
  destruct (row !! 2%nat) as [c2|]; [simpl|by destruct c0].
  destruct c2; try (by destruct c0). by destruct (H2 s).
Qed.

End IndexFacts.

(** ** Runs on the small instance *)

Section Runs.
Import Py Streamlit Scanner.

Lemma length_substring_0 n : ∀ s, n ≤ String.length s →
  String.length (String.substring 0 n s) = n.
Proof.
  induction n as [|n IH]; intros [|c s] Hn; simpl in *; try done; [lia|].
  rewrite IH; [done | lia].
Qed.

Lemma demo_digest_length s : String.length (demo_digest s) = 64.
Proof.
  unfold demo_digest. apply length_substring_0.
  rewrite length_append, length_zeros. lia.
Qed.

Lemma save_then_load_run :
  ∃ f', save_patient (H:=demo) ∅ "0001" (VDict [("Patient Name", VStr "Jane Doe")]) = Some f' ∧
        load_patient (H:=demo) f' "0001" = Some (VDict [("Patient Name", VStr "Jane Doe")]) ∧
        load_patient (H:=demo) ∅ "0001" = Some (VDict []).
Proof.
  eexists. split; [reflexivity|].
  destruct (proj1 (@save_then_load demo) ∅ _ "0001"
              (VDict [("Patient Name", VStr "Jane Doe")]) eq_refl eq_refl) as [Hload Hnew].
  split; [exact Hload | by apply Hnew].
Defined.

Lemma vitals_never_truncated_run :
  ∃ f' doc vs, save_cycles (H:=demo) ∅ "0007" [morning; evening] = Some f' ∧
    load_patient f' "0007" = Some doc ∧ vitals_of doc = Some vs ∧
    vs = reading <$> [morning; evening] ∧ length vs = 2.
Proof.
  eexists.
  destruct (proj2 (@vitals_never_truncated demo (λ v, eq_refl)) ∅ _ "0007" [morning; evening]
              ltac:(discriminate) eq_refl eq_refl) as (doc & vs & Hdoc & Hvs & Heq & Hlen).
  by exists doc, vs.
Defined.

Lemma next_json_id_run :
  next_json_id [3; 7; 1]%Z = (zeros (4 - 1) +:+ "8") ∧
  String.length (next_json_id [3; 7; 1]%Z) = 4.
Proof.
  apply (proj2 (proj2 (proj2 next_json_id_spec)) [3; 7; 1]%Z 7%Z).
  - reflexivity.
  - lia.
Defined.

Lemma appended_entry_is_loaded_run :
  ∃ st2 recs' folder,
    save_record_to_excel (H:=demo) (Some [header]) "1042" "Med" "chart.pdf" = Some st2 ∧
    load_records (H:=demo) st2 = Some (st2, recs') ∧
    (("Med" = "Record" ∧ folder = "Records") ∨ ("Med" = "Med" ∧ folder = "Meds")) ∧
    recs' !! "1042" = Some (folder +:+ "/" +:+ "chart.pdf") ∧
    ∀ k, k ≠ "1042" → recs' !! k = (∅ : gmap string string) !! k.
Proof.
  apply (proj1 (@appended_entry_is_loaded demo) None (Some [header]) ∅ "1042" "Med" "chart.pdf").
  - reflexivity.
  - discriminate.
  - split; [discriminate|]. repeat split.
Defined.

Lemma verify_password_run :
  ∃ f' users, load_users (H:=demo) ∅ = Some (f', users) ∧
    verify_password (H:=demo) users "Admin" "haccare" = true ∧
    verify_password (H:=demo) users "ADMIN" "haccare" = true.
Proof.
  apply (proj1 (proj2 (proj2 (@verify_password_spec demo (λ v, eq_refl) demo_digest_length))) ∅).
  reflexivity.
Defined.

Lemma row_without_number_or_folder_run :
  folders_get (VStr "Xray") "" = "" ∧ path_join "" "scan.png" = "scan.png" ∧
  row_step (H:=demo) ∅ [VInt 5; VStr "Xray"; VStr "scan.png"]
  = Some (<["5" := "scan.png"]> ∅).
Proof.
  apply (proj2 (proj2 (@row_without_number_or_folder demo)) ∅
           [VInt 5; VStr "Xray"; VStr "scan.png"] (VInt 5) (VStr "Xray") "scan.png");
    (reflexivity || discriminate).
Defined.


Lemma patient_id_is_storage_key_run :
  ∃ f' d, save_record (H:=demo)
            {[record_path "0007" := VDict [("Patient ID", VStr "9999")]]} "0007" morning
          = Some (f', "0007") ∧
          load_patient (H:=demo) f' "0007" = Some (VDict d) ∧
          dict_get "Patient ID" d = Some (VStr "0007").
Proof.
  set (f := {[record_path "0007" := VDict [("Patient ID", VStr "9999")]]} : gmap string value).
  set (f' := <[record_path "0007" := compile_record "0007" [] morning]> f).
  assert (Hrun : save_record (H:=demo) f "0007" morning = Some (f', "0007")) by reflexivity.
  destruct (proj1 (@patient_id_is_storage_key demo (λ v, eq_refl))
              f f' "0007" "0007" morning Hrun) as (_ & d & _ & Hload & Hid).
  exists f', d. split; [exact Hrun|]. split; [exact Hload | exact Hid].
Defined.

Lemma list_ids_recovers_plain_ids_run :
  ∃ f' ids, save_patient (H:=demo) ∅ "0042" (VDict []) = Some f' ∧
            list_ids (H:=demo) f' = Some ids ∧ "0042" ∈ ids.
Proof.
  destruct (proj1 (proj2 (@list_ids_recovers_plain_ids demo)) ∅
              (<[record_path "0042" := VDict []]> ∅) "0042" (VDict [])
              ltac:(by split) eq_refl) as (ids & Hids & Hin).
  exists (<[record_path "0042" := VDict []]> ∅), ids.
  split; [reflexivity|]. split; [exact Hids | exact Hin].
Defined.

(** The auto ID branch on a directory that holds the records 3, 7 and 1:
    the ids are read off the file names and the record is saved as 0008,
    with that id as Patient ID. *)
Example auto_id_run :
  let f : gmap string value :=
    {[record_path "0003" := VDict []; record_path "0007" := VDict [];
      record_path "0001" := VDict []]} in
  merge_sort Z.le <$> existing_ids (H:=demo) f = Some [1; 3; 7]%Z ∧
  (r ← save_record (H:=demo) f "" morning;
   d ← load_patient (H:=demo) r.1 r.2 ≫= as_dict;
   Some (r.2, dict_get "Patient ID" d)) = Some ("0008", Some (VStr "0008")).
Proof.
  split; reflexivity.
Qed.

(** C1, where it fails: under the id [a/b] saving raises, the directory
    [Records/record_a] not being there, and the id loads as the empty
    document. *)
Lemma save_under_nested_id_raises :
  (∀ v, @json_loads demo (@json_dumps demo v) = Some v) ∧
  save_patient (H:=demo) ∅ "a/b" (VDict [("Patient Name", VStr "Jane Doe")]) = None ∧
  load_patient (H:=demo) ∅ "a/b" = Some (VDict []).
Proof. repeat split. Qed.

(** C10, where its wording fails: of the file name of the id [a_b], the
    code keeps what stands before the second underscore, while the text
    between the first underscore and the next period is the whole id. *)
Lemma cut_stops_at_second_underscore :
  record_file "a_b" = "record_a_b.json" ∧
  rid_of_filename "record_a_b.json" = Some "a" ∧
  claimed_rid_of_filename "record_a_b.json" = "a_b".
Proof. repeat split. Qed.

(** C6, where it fails: a row with a number, a type that is no folder and
    an empty file cell stops the load instead of adding an entry. *)
Lemma row_with_empty_file_cell_stops_load :
  let row := [VStr "5"; VStr "Xray"; VNone] in
  row !! 0%nat = Some (VStr "5") ∧ row !! 1%nat = Some (VStr "Xray") ∧
  in_folders "Xray" = false ∧
  row_step (H:=demo) ∅ row = None ∧
  load_records (H:=demo) (Some [header; row]) = None.
Proof. repeat split. Qed.


End Runs.

(** * Further properties of the code around the claims *)

(** ** More on the built-ins *)

Section PyMore.
Import Py.

Lemma all_chars_append P s t : all_chars P (s +:+ t) = all_chars P s && all_chars P t.
Proof.
  induction s as [|c s IH]; [done|]. rewrite append_cons. simpl.
  by rewrite IH, andb_assoc.
Qed.

Lemma all_chars_zeros P n : P "0"%char = true → all_chars P (zeros n) = true.
Proof. intros HP. induction n as [|n IH]; simpl; [done | by rewrite HP, IH]. Qed.

Lemma all_chars_weaken (P Q : ascii → bool) s :
  (∀ c, P c = true → Q c = true) → all_chars P s = true → all_chars Q s = true.
Proof.
  intros HPQ. induction s as [|c s IH]; simpl; [done|].
  intros [Hc Hs]%andb_true_iff. by rewrite (HPQ c Hc), IH.
Qed.

Lemma all_chars_contains P c s :
  all_chars P s = true → P c = false → contains c s = false.
Proof.
  intros Hs Hc. induction s as [|a s IH]; simpl in *; [done|].
  apply andb_true_iff in Hs as [Ha Hs]. rewrite IH by done.
  destruct (Ascii.eqb_spec a c) as [->|_]; [congruence | done].
Qed.

Lemma pretty_N_char_digit x :
  (x < 10)%N →
  is_digit (pretty_N_char x) = true ∧ digit_val (pretty_N_char x) = Z.of_N x.
Proof.
  intros Hx.
  assert (x = 0 ∨ x = 1 ∨ x = 2 ∨ x = 3 ∨ x = 4 ∨ x = 5 ∨ x = 6 ∨ x = 7 ∨ x = 8 ∨ x = 9)%N
    as Hcases by lia.
  repeat (destruct Hcases as [->|Hcases]; [by split|]). by subst.
Qed.

Lemma pretty_N_go_digits x : ∀ s,
  all_chars is_digit s = true → all_chars is_digit (pretty_N_go x s) = true.
Proof.
  induction (N.lt_wf_0 x) as [x _ IH]; intros s Hs.
  assert (x = 0 ∨ 0 < x)%N as [->|Hx] by lia; [done|].
  rewrite pretty_N_go_step by done. apply IH; [by apply N.div_lt|].
  simpl. rewrite Hs.
  by destruct (pretty_N_char_digit (x `mod` 10)%N) as [-> _]; [apply N.mod_lt|].
Qed.

(** Reading back the digits [pretty_N_go] writes. *)
Lemma digits_go_pretty_N_go x :
  (0 < x)%N →
  ∃ k : nat, ∀ acc b s,
    digits_go acc b (pretty_N_go x s) = digits_go (acc * 10 ^ Z.of_nat k + Z.of_N x)%Z true s.
Proof.
  induction (N.lt_wf_0 x) as [x _ IH]; intros Hx.
  destruct (pretty_N_char_digit (x `mod` 10)%N) as [Hd Hv]; [by apply N.mod_lt|].
  assert (Hdiv : (Z.of_N x = 10 * Z.of_N (x `div` 10) + Z.of_N (x `mod` 10))%Z).
  { pose proof (N.div_mod x 10 ltac:(done)) as Hdm.
    apply (f_equal Z.of_N) in Hdm. by rewrite N2Z.inj_add, N2Z.inj_mul in Hdm. }
  destruct (N.eq_0_gt_0_cases (x `div` 10)) as [H0|Hpos].
  - exists 1%nat. intros acc b s.
    rewrite pretty_N_go_step, H0, pretty_N_go_0 by done. simpl.
    rewrite Hd, Hv. f_equal. rewrite H0 in Hdiv. lia.
  - destruct (IH (x `div` 10)%N) as [k Hk]; [by apply N.div_lt | done |].
    exists (S k). intros acc b s.
    rewrite pretty_N_go_step, Hk by done. simpl.
    rewrite Hd, Hv. f_equal. rewrite Nat2Z.inj_succ, Z.pow_succ_r by lia. lia.
Qed.

Lemma digits_go_zeros k : ∀ b t,
  digits_go 0 b (zeros k +:+ t) = digits_go 0 (b || bool_decide (0 < k)) t.
Proof.
  induction k as [|k IH]; intros b t.
  - simpl. by rewrite orb_false_r.
  - change (zeros (S k) +:+ t) with (String "0" (zeros k +:+ t)). simpl.
    rewrite IH. by rewrite orb_true_r.
Qed.

Lemma digits_go_positive p b : digits_go 0 b (pretty (N.pos p)) = Some (Z.pos p).
Proof.
  unfold pretty, pretty_N. case_decide; [done|].
  destruct (digits_go_pretty_N_go (N.pos p)) as [k Hk]; [done|].
  by rewrite Hk.
Qed.

(** The decimal text of a number that is not negative. *)
Lemma digits_go_str_of_int z b :
  (0 ≤ z)%Z → digits_go 0 b (str_of_int z) = Some z.
Proof.
  intros Hz. destruct z as [|p|p]; [done| |lia].
  apply digits_go_positive.
Qed.

Lemma str_of_int_digits z : (0 ≤ z)%Z → all_chars is_digit (str_of_int z) = true.
Proof.
  intros Hz. destruct z as [|p|p]; [done| |lia].
  unfold str_of_int, pretty, pretty_Z, pretty, pretty_positive, pretty, pretty_N.
  case_decide; [done|]. by apply pretty_N_go_digits.
Qed.

Lemma str_of_int_neg p : str_of_int (Z.neg p) = String "-" (str_of_int (Z.pos p)).
Proof. reflexivity. Qed.

Lemma str_of_int_nonempty z : (0 ≤ z)%Z → ∃ c r, str_of_int z = String c r ∧ is_digit c = true.
Proof.
  intros Hz. pose proof (str_of_int_digits z Hz) as Hd.
  pose proof (digits_go_str_of_int z false Hz) as Hg.
  destruct (str_of_int z) as [|c r]; [done|].
  simpl in Hd. apply andb_true_iff in Hd as [Hc _]. eauto.
Qed.

Lemma numchar_no_blank c : is_numchar c = true → is_blank c = false.
Proof. by destruct c as [[] [] [] [] [] [] [] []]. Qed.

Lemma lstrip_first c r : isspace c = false → lstrip (String c r) = String c r.
Proof. intros Hc. simpl. by rewrite Hc. Qed.

Lemma rskip_no_blank s : all_chars (λ c, negb (is_blank c)) s = true → rskip s = s.
Proof.
  induction s as [|c s IH]; simpl; [done|].
  intros [Hc Hs]%andb_true_iff. rewrite IH by done.
  apply negb_true_iff in Hc. rewrite Hc. by destruct s.
Qed.

(** [int] finds no blank to skip around a numeral. *)
Lemma skip_numeral s : all_chars is_numchar s = true → rskip (lskip s) = s.
Proof.
  intros Hs.
  assert (Hns : all_chars (λ c, negb (is_blank c)) s = true).
  { apply (all_chars_weaken is_numchar); [|done].
    intros c Hc. by rewrite (numchar_no_blank c Hc). }
  destruct s as [|c r]; [done|].
  assert (Hc : is_blank c = false).
  { simpl in Hns. apply andb_true_iff in Hns as [Hc _]. by apply negb_true_iff. }
  cbn [lskip]. rewrite Hc. by apply rskip_no_blank.
Qed.

Lemma digits_numeral s : all_chars is_digit s = true → all_chars is_numchar s = true.
Proof.
  apply all_chars_weaken. intros c Hc. unfold is_numchar. by rewrite Hc.
Qed.

Lemma int_digits s : all_chars is_digit s = true → int s = digits_go 0 false s.
Proof.
  intros Hs. unfold int. rewrite skip_numeral by by apply digits_numeral.
  destruct s as [|c r]; [done|]. simpl in Hs. apply andb_true_iff in Hs as [Hc _].
  by destruct c as [[] [] [] [] [] [] [] []].
Qed.

Lemma int_minus t :
  all_chars is_digit t = true → int (String "-" t) = Z.opp <$> digits_go 0 false t.
Proof.
  intros Ht. unfold int. rewrite skip_numeral; [done|].
  simpl. by apply digits_numeral.
Qed.

Lemma zfill_minus w d :
  zfill w (String "-" d) = String "-" (zeros (w - S (String.length d)) +:+ d).
Proof.
  unfold zfill. simpl String.length.
  destruct (Nat.leb_spec w (S (String.length d))) as [Hle|Hlt]; [|done].
  by replace (w - S (String.length d)) with 0 by lia.
Qed.

(** The pieces of the text of a generated id. *)
Lemma zfill_str_of_int w z :
  ∃ k d, all_chars is_digit d = true ∧ digits_go 0 false (zeros k +:+ d) = Some (Z.abs z) ∧
         zfill w (str_of_int z) = (if bool_decide (z < 0)%Z then String "-" (zeros k +:+ d)
                                   else zeros k +:+ d).
Proof.
  destruct (decide (z < 0)%Z) as [Hneg|Hpos].
  - destruct z as [|p|p]; try lia. rewrite str_of_int_neg, zfill_minus.
    exists (w - S (String.length (str_of_int (Z.pos p)))), (str_of_int (Z.pos p)).
    rewrite bool_decide_eq_true_2 by done.
    split; [by apply str_of_int_digits|]. split; [|done].
    rewrite digits_go_zeros. by apply digits_go_str_of_int.
  - exists (w - String.length (str_of_int z)), (str_of_int z).
    rewrite bool_decide_eq_false_2 by done.
    split; [apply str_of_int_digits; lia|]. split.
    + rewrite digits_go_zeros, digits_go_str_of_int by lia. f_equal. lia.
    + apply zfill_unsigned, str_of_int_unsigned. lia.
Qed.

Lemma zfill_str_of_int_numeral w z : all_chars is_numchar (zfill w (str_of_int z)) = true.
Proof.
  destruct (zfill_str_of_int w z) as (k & d & Hd & _ & ->).
  assert (all_chars is_numchar (zeros k +:+ d) = true) as Hkd.
  { rewrite all_chars_append, (all_chars_zeros is_numchar k), (digits_numeral d); done. }
  by case_bool_decide.
Qed.

(** [int] reads back what [str] and [zfill] wrote. *)
Lemma int_zfill_str_of_int w z : int (zfill w (str_of_int z)) = Some z.
Proof.
  destruct (zfill_str_of_int w z) as (k & d & Hd & Hgo & ->).
  assert (all_chars is_digit (zeros k +:+ d) = true) as Hkd.
  { by rewrite all_chars_append, (all_chars_zeros is_digit k), Hd. }
  case_bool_decide as Hz.
  - rewrite int_minus, Hgo by done. simpl. f_equal. lia.
  - rewrite int_digits, Hgo by done. f_equal. lia.
Qed.

Lemma prefix_first_differs a o c t :
  a ≠ c → String.prefix (String a o) (String c t) = false.
Proof. intros Hne. simpl. by destruct (ascii_dec a c). Qed.

Lemma replace_go_miss a o new t :
  contains a t = false → replace_go (String a o) new 0 t = t.
Proof.
  induction t as [|c t IH]; [done|].
  intros [Hc Ht]%orb_false_elim. apply Ascii.eqb_neq in Hc.
  cbn [replace_go]. rewrite prefix_first_differs by done. by rewrite IH.
Qed.

Lemma replace_go_skip old new p : ∀ t,
  replace_go old new (String.length p) (p +:+ t) = replace_go old new 0 t.
Proof.
  induction p as [|c p IH]; intros t; [done|].
  rewrite append_cons. simpl. apply IH.
Qed.

Lemma replace_record_prefix t :
  contains "r" t = false → replace "record_" "" ("record_" +:+ t) = t.
Proof.
  intros Ht. unfold replace.
  change ("record_" +:+ t) with (String "r" ("ecord_" +:+ t)).
  cbn [replace_go].
  pose proof (startswith_append "record_" t) as Hp. unfold startswith in Hp.
  change ("record_" +:+ t) with (String "r" ("ecord_" +:+ t)) in Hp. rewrite Hp.
  change (String.length "record_" - 1) with (String.length "ecord_").
  rewrite replace_go_skip. by apply replace_go_miss.
Qed.

Lemma replace_json_suffix s :
  contains "." s = false → replace ".json" "" (s +:+ ".json") = s.
Proof.
  unfold replace. induction s as [|c s IH]; [done|].
  intros [Hc Hs]%orb_false_elim. apply Ascii.eqb_neq in Hc.
  rewrite append_cons. cbn [replace_go].
  rewrite prefix_first_differs by done. by rewrite IH.
Qed.

End PyMore.

(** ** streamlit_app.py: more on the store *)

Section StoreMore.
Context `{Extern}.
Import Py Streamlit Pages.

Hypothesis loads_dumps : ∀ v, json_loads (json_dumps v) = Some v.
Hypothesis digest_length : ∀ s, String.length (sha256_hexdigest s) = 64.

Lemma append_inj_l (t : string) : ∀ s s', s +:+ t = s' +:+ t → s = s'.
Proof.
  assert (Hlen : ∀ s s', s +:+ t = s' +:+ t → String.length s = String.length s').
  { intros s s' Heq. apply (f_equal String.length) in Heq.
    rewrite !length_append in Heq. lia. }
  induction s as [|c s IH]; intros [|c' s'] Heq; try done.
  - apply Hlen in Heq. done.
  - apply Hlen in Heq. done.
  - rewrite !append_cons in Heq. injection Heq as -> Heq. by rewrite (IH s').
Qed.

Lemma record_path_inj rid rid' : record_path rid = record_path rid' → rid = rid'.
Proof.
  rewrite !record_path_eq. intros Heq.
  apply (inj (String.app "Records/record_")) in Heq. by apply append_inj_l in Heq.
Qed.

(** Writing or removing the file of one id leaves what another id loads. *)
Lemma load_patient_insert_ne (f : fs) rid rid' t :
  rid' ≠ rid → load_patient (<[record_path rid := t]> f) rid' = load_patient f rid'.
Proof.
  intros Hne. unfold load_patient, file_at.
  change (path_join RECORDS_DIR (record_file rid')) with (record_path rid').
  rewrite lookup_insert_ne; [done|]. intros Heq%record_path_inj. done.
Qed.

Lemma load_patient_delete_ne (f : fs) rid rid' :
  rid' ≠ rid → load_patient (delete (record_path rid) f) rid' = load_patient f rid'.
Proof.
  intros Hne. unfold load_patient, file_at.
  change (path_join RECORDS_DIR (record_file rid')) with (record_path rid').
  rewrite lookup_delete_ne; [done|]. intros Heq%record_path_inj. done.
Qed.

Lemma record_file_listed (f : fs) rid :
  record_file rid ∈ record_files f ↔
  valid_name (record_file rid) = true ∧ is_Some (f !! record_path rid).
Proof.
  rewrite elem_of_record_files, record_path_eq. unfold record_file. split.
  - intros (r & Heq & Hv & Hf). apply (inj (String.app "record_")) in Heq. by subst r.
  - intros [Hv Hf]. by exists (rid +:+ ".json").
Qed.

Lemma record_files_save (f f' : fs) rid doc n :
  save_patient f rid doc = Some f' →
  n ∈ record_files f' ↔ n ∈ record_files f ∨ n = record_file rid.
Proof.
  intros [Hv ->]%save_patient_Some. rewrite !elem_of_record_files. split.
  - intros (r & -> & Hn & [t Ht]). apply lookup_insert_Some in Ht as [[Hk _]|[_ Ht]].
    + right. rewrite record_path_eq in Hk.
      apply (inj (String.app "Records/record_")) in Hk. by subst r.
    + left. exists r. eauto.
  - intros [(r & -> & Hn & [t Ht])| ->].
    + exists r. split; [done|]. split; [done|].
      destruct (decide (record_path rid = "Records/record_" +:+ r)) as [<-|Hne].
      * rewrite lookup_insert_eq. eauto.
      * rewrite lookup_insert_ne by done. eauto.
    + exists (rid +:+ ".json"). split; [done|]. split; [exact Hv|].
      rewrite record_path_eq, lookup_insert_eq. eauto.
Qed.

(** The id read off the file name of a generated id is its number. *)
Lemma id_of_generated w z : id_of_name (record_file (zfill w (str_of_int z))) = Some z.
Proof.
  unfold id_of_name, record_file.
  pose proof (zfill_str_of_int_numeral w z) as Hnum.
  rewrite replace_record_prefix.
  - rewrite replace_json_suffix; [apply int_zfill_str_of_int|].
    by apply (all_chars_contains is_numchar).
  - rewrite contains_append, (all_chars_contains is_numchar) by done. done.
Qed.

(** The file name of a generated id is a name of a directory entry. *)
Lemma generated_valid w z : valid_name (record_file (zfill w (str_of_int z))) = true.
Proof.
  pose proof (zfill_str_of_int_numeral w z) as Hnum.
  rewrite valid_record_file.
  by rewrite !(all_chars_contains is_numchar _ _ Hnum).
Qed.

Lemma Forall2_elem_l {A B} (R : A → B → Prop) l k x :
  Forall2 R l k → x ∈ l → ∃ y, y ∈ k ∧ R x y.
Proof.
  induction 1 as [|x' y l k HR _ IH]; [by intros ?%elem_of_nil|].
  intros [->|Hx]%elem_of_cons; [exists y; split; [by left | done]|].
  destruct (IH Hx) as (y' & Hy' & HR'). exists y'. split; [by right | done].
Qed.

(** The ids of the auto ID branch are those read off the record files. *)
Lemma existing_ids_elem (f : fs) ids v :
  existing_ids f = Some ids →
  v ∈ ids ↔ ∃ n, n ∈ record_files f ∧ id_of_name n = Some v.
Proof.
  intros Hids%mapM_Some_1. split.
  - intros Hv. by destruct (Forall2_elem_r _ _ _ _ Hids Hv) as (n & Hn & Hid); eauto.
  - intros (n & Hn & Hid).
    destruct (Forall2_elem_l _ _ _ _ Hids Hn) as (v' & Hv' & Hid').
    unfold id_of_name in Hid. congruence.
Qed.

Lemma max_spec ids m : Py.max ids = Some m → m ∈ ids ∧ Forall (λ y, (y ≤ m)%Z) ids.
Proof.
  destruct ids as [|x xs]; [done|]. intros [= <-]. apply foldl_max_spec.
Qed.

Lemma max_unique ids m : m ∈ ids → Forall (λ y, (y ≤ m)%Z) ids → Py.max ids = Some m.
Proof.
  intros Hin Hall. destruct ids as [|x xs]; [by apply elem_of_nil in Hin|].
  destruct (foldl_max_spec xs x) as [Hin' Hall']. simpl. f_equal.
  rewrite Forall_forall in Hall, Hall'.
  specialize (Hall _ Hin'). specialize (Hall' _ Hin). lia.
Qed.

Lemma next_json_id_number ids :
  ∃ n, next_json_id ids = zfill 4 (str_of_int n) ∧ Forall (λ y, (y < n)%Z) ids.
Proof.
  unfold next_json_id. destruct (Py.max ids) as [m|] eqn:Hmax.
  - exists (m + 1)%Z. split; [done|]. destruct (max_spec ids m Hmax) as [_ Hall].
    eapply Forall_impl; [done|]. simpl. lia.
  - exists 1%Z. split; [done|]. by destruct ids.
Qed.

(** The file of the id the auto ID branch makes up does not exist yet. *)
Lemma next_json_id_fresh (f : fs) ids :
  existing_ids f = Some ids → f !! record_path (next_json_id ids) = None.
Proof.
  intros Hids. destruct (next_json_id_number ids) as (n & -> & Hlt).
  destruct (f !! record_path (zfill 4 (str_of_int n))) as [t|] eqn:Hf; [|done].
  assert (Hn : n ∈ ids).
  { apply (existing_ids_elem f ids n Hids).
    exists (record_file (zfill 4 (str_of_int n))).
    split; [|apply id_of_generated].
    apply record_file_listed. split; [apply generated_valid | eauto]. }
  rewrite Forall_forall in Hlt. specialize (Hlt n Hn). lia.
Qed.

(** With the Record # field empty the tabs are drawn from the empty
    document, which raises nowhere, and the file name is one the
    directory takes. *)
Lemma save_record_auto (f : fs) fm :
  save_record f "" fm =
  ids ← existing_ids f;
  Some (<[record_path (next_json_id ids)
          := json_dumps (compile_record (next_json_id ids) [] fm)]> f,
        next_json_id ids).
Proof.
  unfold save_record. simpl. destruct (existing_ids f) as [ids|]; [simpl|done].
  destruct (next_json_id_number ids) as (n & Hn & _).
  assert (Hsave : ∀ doc, save_patient f (next_json_id ids) doc
                         = Some (<[record_path (next_json_id ids) := json_dumps doc]> f)).
  { intros doc. apply save_patient_Some. split; [|done]. rewrite Hn. apply generated_valid. }
  by rewrite Hsave.
Qed.

(** X2: with the Record # field empty, Save Record writes a file that did not
    exist and leaves every other file, and so every record stored, as it
    was. *)
Theorem auto_id_never_overwrites (f f' : fs) (fm : form) (rid : string) :
  save_record f "" fm = Some (f', rid) →
  f !! record_path rid = None ∧
  is_Some (f' !! record_path rid) ∧
  (∀ p, p ≠ record_path rid → f' !! p = f !! p) ∧
  (∀ rid', is_Some (f !! record_path rid') → load_patient f' rid' = load_patient f rid').
Proof.
  rewrite save_record_auto.
  destruct (existing_ids f) as [ids|] eqn:Hids; [simpl|done].
  intros [= <- <-]. pose proof (next_json_id_fresh f ids Hids) as Hfresh.
  split; [done|].
  split; [rewrite lookup_insert_eq; eauto|]. split.
  - intros p Hp. by rewrite lookup_insert_ne.
  - intros rid' [t Ht]. apply load_patient_insert_ne. intros ->. congruence.
Qed.

(** X3: with the Record # field empty, Save Record raises exactly when the
    name of some record file does not read as a number; so it raises from
    then on once a record was saved under such an id. *)
Theorem auto_id_needs_numeric_names :
  (∀ (f : fs) fm,
     save_record f "" fm = None ↔
     ∃ n, n ∈ record_files f ∧ id_of_name n = None) ∧
  (∀ (f f' : fs) rid doc fm,
     id_of_name (record_file rid) = None →
     save_patient f rid doc = Some f' →
     save_record f' "" fm = None).
Proof.
  assert (Hiff : ∀ (f : fs) fm,
     save_record f "" fm = None ↔ ∃ n, n ∈ record_files f ∧ id_of_name n = None).
  { intros f fm. rewrite save_record_auto. unfold existing_ids. split.
    - destruct (mapM _ (record_files f)) as [ids|] eqn:Hids; [done|]. intros _.
      apply mapM_None_1, Exists_exists in Hids as (n & Hn & Hid). by exists n.
    - intros (n & Hn & Hid).
      rewrite (mapM_None_2 _ (record_files f)); [done|].
      apply Exists_exists. by exists n. }
  split; [done|]. intros f f' rid doc fm Hid Hsave. apply Hiff.
  exists (record_file rid). split; [|done].
  apply (record_files_save f f' rid doc _ Hsave). by right.
Qed.

(** X4: two Save Record runs with the Record # field empty, one after the
    other, save under consecutive numbers: the second id is the first
    plus one, filled to four characters, and differs from the first. *)
Theorem auto_ids_are_consecutive (f f1 : fs) (fm fm' : form) (rid1 : string) :
  save_record f "" fm = Some (f1, rid1) →
  ∃ n f2 rid2,
    rid1 = zfill 4 (str_of_int n) ∧
    save_record f1 "" fm' = Some (f2, rid2) ∧
    rid2 = zfill 4 (str_of_int (n + 1)) ∧ rid2 ≠ rid1 ∧
    load_patient f2 rid1 = load_patient f1 rid1.
Proof.
  rewrite save_record_auto.
  destruct (existing_ids f) as [ids|] eqn:Hids; [simpl|done].
  intros [= <- <-].
  destruct (next_json_id_number ids) as (n & Hn & Hlt). rewrite Hn.
  set (doc := compile_record (zfill 4 (str_of_int n)) [] fm).
  set (f1 := <[record_path (zfill 4 (str_of_int n)) := json_dumps doc]> f).
  assert (Hf1 : save_patient f (zfill 4 (str_of_int n)) doc = Some f1).
  { apply save_patient_Some. split; [apply generated_valid | done]. }
  assert (Hsome : is_Some (existing_ids f1)).
  { unfold existing_ids. apply mapM_is_Some_2, Forall_forall. intros x Hx. simpl.
    apply (record_files_save f f1 _ doc _ Hf1) in Hx as [Hx| ->].
    - apply mapM_Some_1 in Hids.
      destruct (Forall2_elem_l _ _ _ _ Hids Hx) as (y & _ & Hy). eauto.
    - pose proof (id_of_generated 4 n) as Hid. unfold id_of_name in Hid. eauto. }
  destruct Hsome as [ids1 Hids1].
  assert (Hmax : Py.max ids1 = Some n).
  { apply max_unique.
    - apply (existing_ids_elem f1 ids1 n Hids1).
      exists (record_file (zfill 4 (str_of_int n))).
      split; [apply (record_files_save f f1 _ doc _ Hf1); by right | apply id_of_generated].
    - apply Forall_forall. intros v Hv.
      apply (existing_ids_elem f1 ids1 v Hids1) in Hv as (x & Hx & Hid).
      apply (record_files_save f f1 _ doc _ Hf1) in Hx as [Hx| ->].
      + assert (v ∈ ids) as Hvin by (apply (existing_ids_elem f ids v Hids); eauto).
        rewrite Forall_forall in Hlt. specialize (Hlt v Hvin). lia.
      + rewrite id_of_generated in Hid. injection Hid as <-. lia. }
  assert (Hnext : next_json_id ids1 = zfill 4 (str_of_int (n + 1))).
  { unfold next_json_id. by rewrite Hmax. }
  pose proof (next_json_id_fresh f1 ids1 Hids1) as Hfresh. rewrite Hnext in Hfresh.
  assert (Hne : zfill 4 (str_of_int (n + 1)) ≠ zfill 4 (str_of_int n)).
  { intros Heq. rewrite Heq in Hfresh. unfold f1 in Hfresh.
    by rewrite lookup_insert_eq in Hfresh. }
  eexists n, _, _. split; [done|]. split.
  { rewrite save_record_auto, Hids1. simpl. by rewrite Hnext. }
  split; [done|]. split; [done|].
  apply load_patient_insert_ne. congruence.
Qed.

(** X1: saving or deleting one record leaves every other record as it was:
    another id loads the same document before and after. *)
Theorem other_records_untouched (f : fs) (rid rid' : string) (doc : value) :
  rid' ≠ rid →
  (∀ f', save_patient f rid doc = Some f' → load_patient f' rid' = load_patient f rid') ∧
  (∀ f', delete_record f rid = Some f' → load_patient f' rid' = load_patient f rid') ∧
  (∀ fm f' r, save_record f rid fm = Some (f', r) → rid ≠ "" →
              load_patient f' rid' = load_patient f rid').
Proof.
  intros Hne.
  assert (Hsave : ∀ d f', save_patient f rid d = Some f' →
                          load_patient f' rid' = load_patient f rid').
  { intros d f' [_ ->]%save_patient_Some. by apply load_patient_insert_ne. }
  split; [apply Hsave|]. split.
  - intros f' (_ & _ & ->)%delete_record_Some. by apply load_patient_delete_ne.
  - intros fm f' r Hsr Hrid.
    destruct (save_record_named f f' rid fm r Hrid Hsr) as (_ & data & vs & _ & _ & Hf').
    by apply (Hsave _ _ Hf').
Qed.

(** *** What the pages show after Save Record *)

(** X6: the Home page finds a record Save Record has written and shows in
    its Info tab the values of the form, with the id of the file as
    Patient ID, and the notes unless they are empty. *)
Theorem home_shows_saved_record (f f' : fs) (rec_id rid : string) (fm : form) :
  save_record f rec_id fm = Some (f', rid) →
  home f' rid =
  Some (HomeInfo
          [("Patient Name", VStr (name fm)); ("Patient ID", VStr rid);
           ("Date of Birth", VStr (dob fm)); ("Gender", VStr (gender fm));
           ("Admission Date", VStr (adm fm));
           ("Attending Physician", VStr (physician fm));
           ("Diagnosis", VStr (diagnosis fm));
           ("Allergies/Reactions", VStr (allergies fm))]
          (if String.eqb (notes fm) "" then None else Some (VStr (notes fm)))).
Proof.
  intros (Hne & vs & Hf')%save_record_result. unfold home.
  apply String.eqb_neq in Hne. rewrite Hne, (load_saved loads_dumps f f' rid _ Hf'). simpl.
  by destruct (String.eqb (notes fm) "").
Qed.

(** X7: the Vitals tab of Add/Edit starts from the reading saved last, and
    from 120, 80, 70 and 37.0 for a record that has no file. *)
Theorem prefill_is_last_reading (f f' : fs) (rec_id rid : string) (fm : form) :
  (save_record f rec_id fm = Some (f', rid) →
   load_patient f' rid ≫= prefill =
   Some (VInt (sys_bp fm), VInt (dia_bp fm), VInt (pulse fm), VFloat (temp fm))) ∧
  (f !! record_path rid = None →
   load_patient f rid ≫= prefill =
   Some (VInt 120, VInt 80, VInt 70, VFloat 4630404104378646528)).
Proof.
  split.
  - intros (Hne & vs & Hf')%save_record_result.
    rewrite (load_saved loads_dumps f f' rid _ Hf'). simpl.
    unfold prefill, last_reading. simpl.
    rewrite last_snoc. destruct vs; reflexivity.
  - intros Hnone. by rewrite (load_patient_absent f rid Hnone).
Qed.

(** *** The credential file *)

Lemma normalize_entry_stable e e' ch :
  normalize_entry e = Some (e', ch) → normalize_entry e' = Some (e', false).
Proof.
  destruct e as [u info], e' as [u' v]. intros Hn.
  destruct (normalize_entry_length64 digest_length u info _ _ Hn)
    as [Hu (d & p & Hv & Hd & Hlen)]. simpl in *. subst u' v.
  unfold normalize_entry. simpl. rewrite Hd. simpl. by rewrite Hlen.
Qed.

Lemma normalize_entry_unchanged e e' :
  normalize_entry e = Some (e', false) → e' = e.
Proof.
  destruct e as [u info]. unfold normalize_entry.
  destruct info as [| | | | | |d]; simpl;
    try (by repeat case_match; intros [= <-]).
  destruct (dict_get "password" d) as [pw|]; [simpl|done].
  destruct (len pw) as [n|]; [simpl|done].
  case_bool_decide; [by destruct pw | by intros [= <-]].
Qed.

Lemma mapM_normalize_again l r :
  mapM normalize_entry l = Some r →
  mapM normalize_entry r.*1 = Some ((λ e, (e, false)) <$> r.*1) ∧
  (existsb snd r = false → r.*1 = l).
Proof.
  intros Hr%mapM_Some_1. split.
  - apply mapM_Some_2. induction Hr as [|e [e' ch] l r Hn _ IH]; csimpl; constructor; [|done].
    by apply (normalize_entry_stable e e' ch).
  - induction Hr as [|e [e' ch] l r Hn _ IH]; csimpl; [done|].
    intros [-> Hr]%orb_false_elim. f_equal; [|by apply IH].
    by apply normalize_entry_unchanged.
Qed.

Lemma fmap_fst_pair_false (l : list (string * value)) :
  ((λ e, (e, false)) <$> l).*1 = l ∧ existsb snd ((λ e, (e, false)) <$> l) = false.
Proof. induction l as [|e l [IH1 IH2]]; csimpl; [done|]. by rewrite IH1, IH2. Qed.

(** X9: loading the users a second time changes nothing: the file system
    left by the first load is left as it is, and the same users are
    returned. *)
Theorem load_users_is_one_shot (f f' : fs) (users : dict) :
  load_users f = Some (f', users) → load_users f' = Some (f', users).
Proof.
  unfold load_users at 1.
  set (f1 := match f !! USERS_FILE with Some _ => f | None => _ end).
  assert (Hf1 : is_Some (f1 !! USERS_FILE)).
  { subst f1. destruct (f !! USERS_FILE) eqn:Hf; [by rewrite Hf|].
    rewrite lookup_insert_eq. eauto. }
  destruct Hf1 as [t Ht]. rewrite Ht. simpl.
  destruct (json_loads t) as [data|] eqn:Hdata; [simpl|done].
  destruct data as [| | | | | |items]; try done. simpl.
  destruct (mapM normalize_entry items) as [r|] eqn:Hr; [simpl|done].
  destruct (mapM_normalize_again items r Hr) as [Hagain Hsame].
  destruct (fmap_fst_pair_false r.*1) as [Hfst Hfalse].
  intros [= <- <-]. destruct (existsb snd r) eqn:Hch.
  - rewrite (load_users_from_file _ (json_dumps (VDict r.*1)) r.*1);
      [|apply lookup_insert_eq|apply loads_dumps].
    rewrite Hagain. simpl. by rewrite Hfalse, Hfst.
  - rewrite (load_users_from_file _ t items Ht Hdata), Hr. simpl.
    by rewrite Hch.
Qed.

(** X10: loading the users writes no file but users.json, and the file it
    leaves holds a dictionary whose every item has a password of length
    64. *)
Theorem load_users_touches_one_file (f f' : fs) (users : dict) :
  load_users f = Some (f', users) →
  (∀ p, p ≠ USERS_FILE → f' !! p = f !! p) ∧
  ∃ t data, f' !! USERS_FILE = Some t ∧ json_loads t = Some (VDict data) ∧
            users = lower_keys data ∧
            Forall (λ e, length64_entry e.2) data.
Proof.
  unfold load_users.
  set (f1 := match f !! USERS_FILE with Some _ => f | None => _ end).
  assert (Hframe : ∀ p, p ≠ USERS_FILE → f1 !! p = f !! p).
  { intros p Hp. subst f1. destruct (f !! USERS_FILE); [done|].
    by rewrite lookup_insert_ne. }
  destruct (f1 !! USERS_FILE) as [t|] eqn:Ht; [simpl|done].
  destruct (json_loads t) as [data|] eqn:Hdata; [simpl|done].
  destruct data as [| | | | | |items]; try done. simpl.
  destruct (mapM normalize_entry items) as [r|] eqn:Hr; [simpl|done].
  destruct (mapM_normalize_again items r Hr) as [_ Hsame].
  assert (Hall : Forall (λ e, length64_entry e.2) r.*1).
  { apply Forall_forall. intros e' Hin'.
    apply list_elem_of_fmap in Hin' as ([e'' ch] & Heq & Hin). simpl in Heq. subst e'.
    apply mapM_Some_1 in Hr.
    destruct (Forall2_elem_r _ _ _ _ Hr Hin) as ([u info] & _ & Hn).
    by destruct (normalize_entry_length64 digest_length u info _ _ Hn). }
  intros [= <- <-]. destruct (existsb snd r) eqn:Hch.
  - split; [intros p Hp; rewrite lookup_insert_ne by done; by apply Hframe|].
    exists (json_dumps (VDict r.*1)), r.*1.
    by rewrite lookup_insert_eq, loads_dumps.
  - split; [done|]. exists t, items. rewrite <-(Hsame eq_refl) at 2 3. done.
Qed.

Lemma dict_get_set k k' v d :
  dict_get k (dict_set k' v d) = if String.eqb k k' then Some v else dict_get k d.
Proof.
  induction d as [|[k0 v0] d IH]; simpl; [done|].
  destruct (String.eqb_spec k' k0) as [->|Hne]; simpl.
  - by destruct (String.eqb k k0).
  - rewrite IH. destruct (String.eqb_spec k k0) as [->|_]; [|done].
    destruct (String.eqb_spec k0 k'); [congruence | done].
Qed.

Lemma lower_keys_snoc l e :
  lower_keys (l ++ [e]) = dict_set (lower e.1) e.2 (lower_keys l).
Proof. unfold lower_keys. by rewrite foldl_app. Qed.

(** Of the items whose names are the same in lower case, the last one
    of the file is the one the users hold. *)
Lemma lower_keys_last l1 u v l2 :
  Forall (λ e, lower e.1 ≠ lower u) l2 →
  dict_get (lower u) (lower_keys (l1 ++ (u, v) :: l2)) = Some v.
Proof.
  induction l2 as [|e l2 IH] using rev_ind; intros Hl2.
  - by rewrite lower_keys_snoc, dict_get_set, String.eqb_refl.
  - apply Forall_app in Hl2 as [Hl2 [He _]%Forall_cons].
    replace (l1 ++ (u, v) :: l2 ++ [e]) with ((l1 ++ (u, v) :: l2) ++ [e])
      by (by rewrite <-app_assoc).
    rewrite lower_keys_snoc, dict_get_set.
    destruct (String.eqb_spec (lower u) (lower e.1)); [congruence|].
    by apply IH.
Qed.

(** X11: after the users were loaded, the user of an item of the file, the
    last one under its name in lower case, whose password is text, logs
    in, under any spelling of the name, exactly with the passwords whose
    digest is the normal form of that text. So a plaintext password that
    has not 64 characters keeps working after the migration, and one of
    64 characters is compared as if it were a digest. *)
Theorem login_after_migration
    (f f' : fs) t (l1 l2 : dict) (users : dict) (u : string) (info : value) (s : string) :
  f !! USERS_FILE = Some t → json_loads t = Some (VDict (l1 ++ (u, info) :: l2)) →
  Forall (λ e, lower e.1 ≠ lower u) l2 →
  stored_text info = Some s →
  load_users f = Some (f', users) →
  (∀ user pw, lower (strip user) = lower u →
     (verify_password users user pw = true ↔ hash_password pw = normal_password s)) ∧
  (String.length s ≠ 64 → ∀ user, lower (strip user) = lower u →
     verify_password users user s = true) ∧
  (String.length s = 64 → ∀ user pw, lower (strip user) = lower u →
     (verify_password users user pw = true ↔ hash_password pw = s)).
Proof.
  intros Hf Ht Hl2 Hs Hload.
  rewrite (load_users_from_file f t _ Hf Ht) in Hload.
  destruct (mapM normalize_entry (l1 ++ (u, info) :: l2)) as [r|] eqn:Hr;
    [simpl in Hload|done].
  injection Hload as _ <-.
  apply mapM_Some_1, Forall2_app_inv_l in Hr as (r1 & r2' & Hr1 & Hr2 & ->).
  apply Forall2_cons_inv_l in Hr2 as (x & r2 & Hx & Hr2 & ->).
  destruct (normalize_entry_text u info s Hs) as (d & ch & Hn & Hd).
  rewrite Hn in Hx. injection Hx as <-.
  assert (Hkeys : Forall (λ e, lower e.1 ≠ lower u) r2.*1).
  { apply Forall_forall. intros e' Hin'.
    apply list_elem_of_fmap in Hin' as ([e'' c] & Heq & Hin). simpl in Heq. subst e'.
    destruct (Forall2_elem_r _ _ _ _ Hr2 Hin) as ([u0 i0] & Hin0 & Hn0).
    destruct (normalize_entry_length64 digest_length u0 i0 _ _ Hn0) as [Hk _].
    simpl in Hk. rewrite Hk.
    rewrite Forall_forall in Hl2. apply (Hl2 _ Hin0). }
  assert (Hget : dict_get (lower u) (lower_keys (r1 ++ (u, VDict d, ch) :: r2).*1)
                 = Some (VDict d)).
  { rewrite fmap_app, fmap_cons. by apply lower_keys_last. }
  assert (Hiff : ∀ user pw, lower (strip user) = lower u →
     (verify_password (lower_keys (r1 ++ (u, VDict d, ch) :: r2).*1) user pw = true
      ↔ hash_password pw = normal_password s)).
  { intros user pw Huser. unfold verify_password. rewrite Huser, Hget, Hd.
    rewrite String.eqb_eq. split; congruence. }
  split; [done|]. split.
  - intros Hlen user Huser. apply Hiff; [done|]. unfold normal_password.
    by destruct (Nat.eqb_spec (String.length s) 64).
  - intros Hlen user pw Huser. rewrite Hiff by done. unfold normal_password.
    by rewrite Hlen.
Qed.

(** *** The id a generated name reads back as *)

(** X5: the id the auto ID branch makes up is the text of a number above all
    existing ids, and the branch reads that number back off the name of
    the file saved under it. *)
Theorem generated_id_reads_back (ids : list Z) :
  ∃ n, next_json_id ids = zfill 4 (str_of_int n) ∧
       Forall (λ y, (y < n)%Z) ids ∧
       Py.int (next_json_id ids) = Some n ∧
       id_of_name (record_file (next_json_id ids)) = Some n.
Proof.
  destruct (next_json_id_number ids) as (n & Hn & Hlt).
  exists n. rewrite Hn. split; [done|]. split; [done|].
  split; [apply int_zfill_str_of_int | apply id_of_generated].
Qed.

(** *** The Delete button of a row *)

Lemma longer_differs (r rest : string) : rest ≠ "" → r +:+ rest ≠ r.
Proof.
  intros Hrest Heq. apply (f_equal String.length) in Heq.
  rewrite length_append in Heq. destruct rest; [done|]. simpl in Heq. lia.
Qed.

(** The id cut out of the file name of an id with underscore or period
    is a proper start of the id. *)
Lemma cut_of_marked_id rid :
  ¬ plain_id rid →
  ∃ r rest, rid_of_filename (record_file rid) = Some r ∧ rid = r +:+ rest ∧ rest ≠ "".
Proof.
  intros Hn. rewrite rid_of_record_file.
  destruct (contains "_" rid) eqn:Hu.
  - rewrite before_append_stop by done.
    destruct (before_split "_" rid) as (r1 & H1 & Hr1).
    destruct (before_split "." (before "_" rid)) as (r2 & H2 & _).
    exists (before "." (before "_" rid)), (r2 +:+ r1). split; [done|]. split.
    + by rewrite <-append_assoc, <-H2.
    + specialize (Hr1 Hu). destruct r2; [done | by rewrite append_cons].
  - destruct (contains "." rid) eqn:Hp; [|by destruct Hn].
    rewrite before_append_plain by done.
    change (before "_" ".json") with ".json".
    rewrite before_append_stop by done.
    destruct (before_split "." rid) as (rest & Hr & Hne).
    exists (before "." rid), rest. split; [done|]. split; [done | by apply Hne].
Qed.

(** X8: the Delete button of the row of a record file removes the file of
    the id cut out of its name. For an id without underscore and period
    that is the file of the row; for any other id the file of the row
    stays whatever the button does: where pressing it does not raise, it
    has removed the file of another record. *)
Theorem delete_row_target (f f' : fs) (rid : string) :
  delete_row f (record_file rid) = Some f' →
  ∃ r, rid_of_filename (record_file rid) = Some r ∧
       is_Some (f !! record_path r) ∧ f' = delete (record_path r) f ∧
       (plain_id rid → r = rid) ∧
       (¬ plain_id rid →
        r ≠ rid ∧ f' !! record_path rid = f !! record_path rid ∧
        load_patient f' rid = load_patient f rid).
Proof.
  unfold delete_row.
  assert (Hpress : ∀ names seen n,
    press_delete f names seen n = Some f' →
    ∃ r, rid_of_filename n = Some r ∧ delete_record f r = Some f').
  { induction names as [|m names IH]; intros seen n; simpl; [done|].
    destruct (row_of f m) as [[r v]|] eqn:Hrow; [simpl|done].
    case_bool_decide; [done|].
    destruct (String.eqb_spec m n) as [->|_]; [|apply IH].
    intros Hdel. exists r. split; [|done].
    unfold row_of in Hrow. destruct (rid_of_filename n) as [r'|]; [simpl in Hrow|done].
    destruct (load_patient f r') as [data|]; [simpl in Hrow|done].
    destruct (as_dict data); [simpl in Hrow|done]. by injection Hrow as -> _. }
  intros (r & Hcut & (_ & Hf & ->)%delete_record_Some)%Hpress.
  exists r. split; [done|]. split; [done|]. split; [done|].
  rewrite rid_of_record_file in Hcut. injection Hcut as Hcut. split.
  - intros Hplain. by rewrite before_record_plain in Hcut.
  - intros Hn. destruct (cut_of_marked_id rid Hn) as (r' & rest & Hcut' & Hrid & Hrest).
    rewrite rid_of_record_file in Hcut'. injection Hcut' as Hcut'.
    assert (Hne : rid ≠ r).
    { intros Heq. subst r'. rewrite Hcut in Hrid. rewrite <-Heq in Hrid.
      symmetry in Hrid. by apply (longer_differs rid rest Hrest). }
    split; [done|]. split.
    + apply lookup_delete_ne. intros Heq%record_path_inj. done.
    + by apply load_patient_delete_ne.
Qed.

End StoreMore.

(** ** main.py: opening and adding records *)

Section GuiFacts.
Context `{Extern}.
Import Py Scanner Gui.

Variable html : string.

Lemma rstrip_first c r : isspace c = false → rstrip (String c r) = String c (rstrip r).
Proof. intros Hc. simpl. rewrite Hc. by destruct (rstrip r). Qed.

Lemma rstrip_idemp s : rstrip (rstrip s) = rstrip s.
Proof.
  induction s as [|c s IH]; [done|]. simpl.
  destruct (rstrip s) as [|c' r] eqn:Hr.
  - destruct (isspace c) eqn:Hc; [done|]. simpl. by rewrite Hc.
  - simpl in IH. simpl. destruct (rstrip r) as [|c'' r'] eqn:Hr'.
    + destruct (isspace c'); [done|]. by injection IH as ->.
    + by rewrite IH.
Qed.

Lemma lstrip_cases s :
  lstrip s = "" ∨ ∃ c r, lstrip s = String c r ∧ isspace c = false.
Proof.
  induction s as [|c s IH]; simpl; [by left|].
  destruct (isspace c) eqn:Hc; [done|]. right. eauto.
Qed.

(** Stripping twice is stripping once. *)
Lemma strip_idemp s : strip (strip s) = strip s.
Proof.
  unfold strip. destruct (lstrip_cases s) as [->|(c & r & -> & Hc)]; [done|].
  rewrite rstrip_first by done. rewrite lstrip_first by done.
  rewrite <-rstrip_first by done. apply rstrip_idemp.
Qed.

(** The numbers of the loaded index are those of the rows that have one. *)
Lemma scan_rows_keys rows : ∀ recs recs' k,
  scan_rows recs rows = Some recs' →
  is_Some (recs' !! k) ↔
  is_Some (recs !! k) ∨
  ∃ row c, row ∈ rows ∧ row !! 0%nat = Some c ∧ c ≠ VNone ∧ Py.str c = k.
Proof.
  induction rows as [|row rows IH]; intros recs recs' k; simpl.
  - intros [= <-]. split; [by left|]. intros [?|(row & c & Hin & _)]; [done|].
    by apply elem_of_nil in Hin.
  - destruct (row_step recs row) as [r|] eqn:Hstep; [simpl|done].
    intros Hscan. rewrite (IH r recs' k Hscan). clear IH Hscan.
    unfold row_step in Hstep.
    destruct (row !! 0%nat) as [c0|] eqn:H0; [simpl in Hstep|done].
    assert (Hskip : c0 = VNone → r = recs).
    { intros ->. by injection Hstep as <-. }
    assert (Hadd : c0 ≠ VNone → ∃ p, r = <[Py.str c0 := p]> recs).
    { intros Hc0. destruct (row !! 1%nat) as [c1|]; [|by destruct c0].
      destruct (row !! 2%nat) as [c2|]; [|by destruct c0].
      destruct c2; try (by destruct c0). destruct c0; try done; simpl in Hstep;
        injection Hstep as <-; eauto. }
    assert (c0 = VNone ∨ c0 ≠ VNone) as [Hc0|Hc0]
      by (destruct c0; [by left | by right ..]).
    + rewrite (Hskip Hc0). split.
      * intros [?|(row' & c & Hin & Hrest)]; [by left|]. right.
        exists row', c. split; [by right | done].
      * intros [?|(row' & c & Hin & Hr0 & Hc & Hk)]; [by left|].
        apply elem_of_cons in Hin as [->|Hin]; [congruence|].
        right. by exists row', c.
    + destruct (Hadd Hc0) as [p ->]. split.
      * intros [[v Hv]|(row' & c & Hin & Hrest)].
        -- apply lookup_insert_Some in Hv as [[<- _]|[_ Hv]].
           ++ right. exists row, c0. split; [by left | done].
           ++ left. eauto.
        -- right. exists row', c. split; [by right | done].
      * intros [[v Hv]|(row' & c & Hin & Hr0 & Hc & Hk)].
        -- left. destruct (decide (Py.str c0 = k)) as [<-|Hne].
           ++ rewrite lookup_insert_eq. eauto.
           ++ rewrite lookup_insert_ne by done. eauto.
        -- apply elem_of_cons in Hin as [->|Hin].
           ++ left. rewrite H0 in Hr0. injection Hr0 as <-. subst k.
              rewrite lookup_insert_eq. eauto.
           ++ right. by exists row', c.
Qed.

(** X12: open Record tells Not Found, with the error tone, exactly for the
    entries whose stripped text is the number of no row of the sheet. *)
Theorem open_record_not_found (a : app) (ws : worksheet) (entry : string) :
  in_sync a → sheet a = Some ws →
  open_record a entry = (NotFound, ErrorBeep) ↔
  ¬ ∃ row c, row ∈ iter_rows ws ∧ row !! 0%nat = Some c ∧ c ≠ VNone ∧
             Py.str c = strip entry.
Proof.
  intros [_ Hload] Hws. rewrite Hws in Hload. unfold load_records in Hload.
  destruct (scan_rows ∅ (iter_rows ws)) as [recs|] eqn:Hscan; [simpl in Hload|done].
  injection Hload as Hrecs.
  pose proof (scan_rows_keys _ _ _ (strip entry) Hscan) as Hkeys.
  rewrite Hrecs in Hkeys. unfold open_record. split.
  - intros Hnf Hrow.
    destruct (proj2 Hkeys (or_intror Hrow)) as [p Hp]. rewrite Hp in Hnf.
    by case_bool_decide.
  - intros Hno. destruct (records a !! strip entry) as [p|] eqn:Hp; [|done].
    destruct (proj1 Hkeys (mk_is_Some _ _ eq_refl)) as [[? Hempty]|Hrow]; [|done].
    by rewrite lookup_empty in Hempty.
Qed.

Lemma basename_no_slash p : contains "/" (basename p) = false.
Proof.
  induction p as [|c p IH]; [done|]. simpl.
  destruct (contains "/" p) eqn:Hp; [done|].
  destruct (Ascii.eqb c "/") eqn:Hc; [done|]. simpl. by rewrite Hc, Hp.
Qed.

Lemma no_slash_not_absolute s : contains "/" s = false → startswith "/" s = false.
Proof.
  destruct s as [|c s]; [done|]. simpl. intros [Hc _]%orb_false_elim.
  apply Ascii.eqb_neq in Hc. unfold startswith.
  apply prefix_first_differs. congruence.
Qed.

Lemma valid_not_absolute s : valid_name s = true → startswith "/" s = false.
Proof.
  unfold valid_name. intros Hv. apply no_slash_not_absolute.
  destruct (contains "/" s); [|done]. by rewrite !andb_false_r in Hv.
Qed.

(** [add_record] either leaves the program as it was, or it gets as far
    as [records[number] = dest_path] with a file written to the folder. *)
Lemma add_record_cases (a a' : app) (d : dialogs) (e : ending) :
  add_record html a d = (a', e) →
  (a' = a ∧ (e = Returned ∨ e = InvalidType ∨ e = Raised)) ∨
  ∃ number ty folder filename content done',
    ask_number d = Some number ∧ number ≠ "" ∧
    ask_type d = Some ty ∧ folder_of ty FOLDERS = Some folder ∧
    valid_name filename = true ∧
    handed_over d = [number; ty; filename] ∧
    ((done' = Added ∧ filename = basename (ask_file d)) ∨
     (done' = Generated filename ∧ filename = "patient_record_" +:+ number +:+ ".html")) ∧
    (a', e) = register a (<[path_join folder filename := content]> (disk a))
                       number ty filename (path_join folder filename) done'.
Proof.
  unfold add_record, handed_over, in_folders.
  destruct (ask_number d) as [number|]; [|intros [= <- <-]; left; eauto].
  destruct (String.eqb_spec number "") as [->|Hne]; [intros [= <- <-]; left; eauto|].
  destruct (ask_type d) as [ty|]; [|intros [= <- <-]; left; eauto].
  destruct (folder_of ty FOLDERS) as [folder|] eqn:Hfolder; [|intros [= <- <-]; left; eauto].
  destruct (String.eqb ty "Record" && ask_generate d).
  - unfold generate.
    destruct (valid_name ("patient_record_" +:+ number +:+ ".html")) eqn:Hv;
      [|intros [= <- <-]; left; eauto].
    intros Hreg. right.
    exists number, ty, folder, ("patient_record_" +:+ number +:+ ".html"), html,
           (Generated ("patient_record_" +:+ number +:+ ".html")).
    repeat (split; [done|]). split; [by right | done].
  - unfold upload.
    destruct (String.eqb (ask_file d) ""); [intros [= <- <-]; left; eauto|].
    destruct (disk a !! ask_file d) as [content|]; [|intros [= <- <-]; left; eauto].
    destruct (valid_name (basename (ask_file d))) eqn:Hv; simpl;
      [|intros [= <- <-]; left; eauto].
    destruct (String.eqb (ask_file d) _); [intros [= <- <-]; left; eauto|].
    intros Hreg. right.
    exists number, ty, folder, (basename (ask_file d)), content, Added.
    repeat (split; [done|]). split; [by left | done].
Qed.

(** What an add that ends well has done. *)
Lemma add_record_done (a a' : app) (d : dialogs) (e : ending) :
  add_record html a d = (a', e) → (e = Added ∨ ∃ fn, e = Generated fn) →
  ∃ number ty folder filename content sheet',
    ask_number d = Some number ∧ number ≠ "" ∧
    ask_type d = Some ty ∧ folder_of ty FOLDERS = Some folder ∧
    startswith "/" filename = false ∧
    ((e = Added ∧ filename = basename (ask_file d)) ∨
     (e = Generated filename ∧ filename = "patient_record_" +:+ number +:+ ".html")) ∧
    save_record_to_excel (sheet a) number ty filename = Some sheet' ∧
    a' = {| sheet := sheet';
            records := <[number := path_join folder filename]> (records a);
            disk := <[path_join folder filename := content]> (disk a) |}.
Proof.
  intros Hadd He.
  destruct (add_record_cases a a' d e Hadd)
    as [[_ Hno]|(number & ty & folder & fn & content & done' & Hn & Hne & Hty & Hfolder
                 & Hv & _ & Hname & Hreg)].
  { destruct He as [->|[x ->]]; by destruct Hno as [?|[?|?]]. }
  unfold register in Hreg.
  destruct (save_record_to_excel (sheet a) number ty fn) as [sheet'|] eqn:Hsave.
  - injection Hreg as -> ->.
    exists number, ty, folder, fn, content, sheet'.
    repeat (split; [done|]). split; [by apply valid_not_absolute|]. done.
  - injection Hreg as _ ->. by destruct He as [?|[? ?]].
Qed.

(** What an add that ends otherwise has done: nothing, unless an
    exception left it. *)
Lemma add_record_undone (a a' : app) (d : dialogs) (e : ending) :
  add_record html a d = (a', e) → e ≠ Added → (∀ fn, e ≠ Generated fn) →
  a' = a ∨ e = Raised.
Proof.
  intros Hadd Hadded Hgen.
  destruct (add_record_cases a a' d e Hadd)
    as [[-> _]|(number & ty & folder & fn & content & done' & _ & _ & _ & _
                & _ & _ & Hname & Hreg)]; [by left|].
  unfold register in Hreg.
  destruct (save_record_to_excel (sheet a) number ty fn) as [sheet'|].
  - injection Hreg as _ ->. by destruct Hname as [[-> _]|[-> _]]; [|destruct (Hgen fn)].
  - injection Hreg as _ ->. by right.
Qed.

(** X13: open Record looks up the stripped entry, so a number kept with a
    blank at either end is never found, whatever is typed; and
    add_record keeps such a number as it is. *)
Theorem blank_padded_number_is_unreachable (a : app) :
  (∀ entry, (∀ k, is_Some (records a !! k) → strip k ≠ k) →
            open_record a entry = (NotFound, ErrorBeep)) ∧
  (∀ d number a' e, ask_number d = Some number → strip number ≠ number →
     add_record html a d = (a', e) → (e = Added ∨ ∃ fn, e = Generated fn) →
     is_Some (records a' !! number) ∧ ∀ entry, strip entry ≠ number).
Proof.
  split.
  - intros entry Hkeys. unfold open_record.
    destruct (records a !! strip entry) as [p|] eqn:Hp; [|done].
    destruct (Hkeys (strip entry)); [eauto | apply strip_idemp].
  - intros d number a' e Hnum Hstrip Hadd He.
    destruct (add_record_done a a' d e Hadd He)
      as (n & ty & folder & fn & content & sheet' & Hn & _ & _ & _ & _ & _ & _ & ->).
    rewrite Hnum in Hn. injection Hn as <-. split.
    + simpl. rewrite lookup_insert_eq. eauto.
    + intros entry Heq. apply Hstrip. rewrite <-Heq. apply strip_idemp.
Qed.

(** X14: a record that add_record has added under a number without blanks
    around is opened right away, with the success tone, from the folder
    of its type. *)
Theorem added_record_opens (a a' : app) (d : dialogs) (e : ending) (number : string) :
  add_record html a d = (a', e) → (e = Added ∨ ∃ fn, e = Generated fn) →
  ask_number d = Some number → strip number = number →
  ∃ folder filename,
    ((ask_type d = Some "Record" ∧ folder = "Records") ∨
     (ask_type d = Some "Med" ∧ folder = "Meds")) ∧
    (e = Added → filename = basename (ask_file d)) ∧
    (∀ fn, e = Generated fn →
           filename = "patient_record_" +:+ number +:+ ".html" ∧ fn = filename) ∧
    open_record a' number = (Opened (folder +:+ "/" +:+ filename), SuccessBeep).
Proof.
  intros Hadd He Hnum Hstrip.
  destruct (add_record_done a a' d e Hadd He)
    as (n & ty & folder & fn & content & sheet' & Hn & Hne & Hty & Hfolder & Hfn & Hname & _ & Ha').
  rewrite Hnum in Hn. injection Hn as <-.
  assert (Hin : in_folders ty = true) by (unfold in_folders; by rewrite Hfolder).
  assert (Hjoin : path_join folder fn = folder +:+ "/" +:+ fn).
  { unfold path_join. rewrite Hfn.
    by destruct (in_folders_cases ty Hin) as [[_ Hf]|[_ Hf]];
      rewrite Hfolder in Hf; injection Hf as ->. }
  exists folder, fn. split.
  { rewrite Hty. destruct (in_folders_cases ty Hin) as [[-> Hf]|[-> Hf]];
      rewrite Hfolder in Hf; injection Hf as ->; [by left | by right]. }
  split; [intros ->; by destruct Hname as [[_ ?]|[? _]]|].
  split; [intros x ->; destruct Hname as [[? _]|[[= ->] ?]]; done|].
  unfold open_record. rewrite Hstrip, Ha'. simpl.
  rewrite lookup_insert_eq, <-Hjoin.
  by rewrite bool_decide_eq_true_2 by (rewrite lookup_insert_eq; eauto).
Qed.

(** X15: add_record changes nothing when it returns without a word or shows
    the Invalid Type box; it shows the box exactly when a number was
    given and the type is no key of FOLDERS; and without a number it
    returns at once. *)
Theorem add_record_rejections (a : app) (d : dialogs) :
  ((add_record html a d).2 = Returned ∨ (add_record html a d).2 = InvalidType →
   (add_record html a d).1 = a) ∧
  ((add_record html a d).2 = InvalidType ↔
   (∃ number, ask_number d = Some number ∧ number ≠ "") ∧
   (∀ t, ask_type d = Some t → in_folders t = false)) ∧
  (ask_number d = None ∨ ask_number d = Some "" → add_record html a d = (a, Returned)).
Proof.
  split; [|split].
  - intros He. destruct (add_record html a d) as [a' e] eqn:Hadd. simpl in *.
    destruct (add_record_undone a a' d e Hadd) as [?| ->];
      [by destruct He as [-> | ->].. | done | by destruct He].
  - assert (Hreg : ∀ dk number ty fn dest done', done' ≠ InvalidType →
      (register a dk number ty fn dest done').2 ≠ InvalidType).
    { intros. unfold register. by destruct (save_record_to_excel _ _ _ _). }
    assert (Hgen : ∀ number ty folder, (generate html a number ty folder).2 ≠ InvalidType).
    { intros. unfold generate. destruct (valid_name _); [by apply Hreg | done]. }
    assert (Hup : ∀ number ty folder, (upload a number ty folder d).2 ≠ InvalidType).
    { intros. unfold upload. repeat case_match; try done. by apply Hreg. }
    unfold add_record, in_folders.
    destruct (ask_number d) as [number|].
    2:{ simpl. split; [done | by intros [(? & ? & _) _]]. }
    destruct (String.eqb_spec number "") as [->|Hne].
    { simpl. split; [done | by intros [(? & [= <-] & ?) _]]. }
    destruct (ask_type d) as [ty|].
    2:{ simpl. split; [|done]. intros _. split; [by exists number | done]. }
    destruct (folder_of ty FOLDERS) as [folder|] eqn:Hfolder.
    + split.
      * intros He. exfalso.
        destruct (String.eqb ty "Record" && ask_generate d);
          [by apply (Hgen number ty folder) | by apply (Hup number ty folder)].
      * intros [_ Hty]. specialize (Hty ty eq_refl). by rewrite Hfolder in Hty.
    + split; [|done]. intros _. split; [by exists number|].
      intros t [= <-]. by rewrite Hfolder.
  - unfold add_record. by intros [-> | ->].
Qed.

(** X16: one row with a number and no text in its File cell makes
    load_records raise, so that the program does not start. *)
Theorem one_row_without_file_stops_the_program
    (ws : worksheet) (files : gmap string string) (row : list value) (c : value) :
  row ∈ iter_rows ws → row !! 0%nat = Some c → c ≠ VNone →
  (∀ s, row !! 2%nat ≠ Some (VStr s)) →
  load_records (Some ws) = None ∧ start (Some ws) files = None.
Proof.
  intros Hin H0 Hc H2.
  assert (Hscan : ∀ rows recs, row ∈ rows → scan_rows recs rows = None).
  { induction rows as [|r rows IH]; intros recs Hr; [by apply elem_of_nil in Hr|].
    simpl. apply elem_of_cons in Hr as [<-|Hr].
    - by rewrite (row_without_file recs row c H0 Hc H2).
    - destruct (row_step recs r); simpl; [by apply IH | done]. }
  assert (Hload : load_records (Some ws) = None).
  { unfold load_records. by rewrite (Hscan _ ∅ Hin). }
  split; [done|]. unfold start. by rewrite Hload.
Qed.



Lemma scan_rows_other rows : ∀ recs recs' k,
  scan_rows recs rows = Some recs' →
  (∀ row c, row ∈ rows → row !! 0%nat = Some c → c ≠ VNone → Py.str c ≠ k) →
  recs' !! k = recs !! k.
Proof.
  induction rows as [|row rows IH]; intros recs recs' k; simpl.
  - by intros [= <-].
  - destruct (row_step recs row) as [r|] eqn:Hstep; [simpl|done].
    intros Hscan Hrows. rewrite (IH r recs' k Hscan).
    2:{ intros row' c Hin. apply Hrows. by right. }
    unfold row_step in Hstep.
    destruct (row !! 0%nat) as [c0|] eqn:H0; [simpl in Hstep|done].
    assert (c0 = VNone ∨ c0 ≠ VNone) as [->|Hc0]
      by (destruct c0; [by left | by right ..]).
    { by injection Hstep as <-. }
    assert (Hk : Py.str c0 ≠ k) by (apply (Hrows row c0); [by left | done..]).
    destruct (row !! 1%nat) as [c1|]; [|by destruct c0].
    destruct (row !! 2%nat) as [c2|]; [|by destruct c0].
    destruct c2; try (by destruct c0).
    destruct c0; try done; simpl in Hstep; injection Hstep as <-;
      by rewrite lookup_insert_ne.
Qed.

(** X18: of the rows of a sheet that carry one number, the last decides:
    after a load that went through, the number stands for the path of
    the row after which no row has that number. *)
Theorem last_row_of_a_number_wins
    (ws : worksheet) (st : option worksheet) (recs : gmap string string)
    (rows1 rows2 : list (list value)) (row : list value) (c0 c1 : value) (file : string) :
  load_records (Some ws) = Some (st, recs) →
  iter_rows ws = (rows1 ++ row :: rows2)%list →
  row !! 0%nat = Some c0 → c0 ≠ VNone →
  row !! 1%nat = Some c1 → row !! 2%nat = Some (VStr file) →
  (∀ row' c, row' ∈ rows2 → row' !! 0%nat = Some c → c ≠ VNone → Py.str c ≠ Py.str c0) →
  recs !! Py.str c0 = Some (path_join (folders_get c1 "") file).
Proof.
  intros Hload Hrows H0 Hc0 H1 H2 Hlater. unfold load_records in Hload.
  destruct (scan_rows ∅ (iter_rows ws)) as [r|] eqn:Hscan; [simpl in Hload|done].
  injection Hload as _ <-. rewrite Hrows, scan_rows_app in Hscan.
  destruct (scan_rows ∅ rows1) as [r1|]; [simpl in Hscan|done].
  destruct (row_step r1 row) as [r2|] eqn:Hstep; [simpl in Hscan|done].
  rewrite (scan_rows_other rows2 r2 r (Py.str c0) Hscan Hlater).
  unfold row_step in Hstep. rewrite H0 in Hstep. simpl in Hstep.
  rewrite H1 in Hstep. simpl in Hstep. rewrite H2 in Hstep. simpl in Hstep.
  destruct c0; try done; simpl in Hstep; injection Hstep as <-;
    apply lookup_insert_eq.
Qed.

End GuiFacts.

(** ** Further runs on the small instance *)

Section MoreRuns.
Import Py Streamlit Pages Scanner Gui.

Lemma other_records_untouched_run :
  load_patient (H:=demo) (<[record_path "0003" := VDict [("Notes", VStr "x")]]> three_records) "0007"
  = load_patient (H:=demo) three_records "0007".
Proof.
  apply (proj1 (@other_records_untouched demo three_records "0003" "0007"
                  (VDict [("Notes", VStr "x")]) ltac:(discriminate))).
  reflexivity.
Defined.

Lemma auto_id_never_overwrites_run :
  three_records !! record_path "0008" = None ∧
  is_Some ((<[record_path "0008" := compile_record "0008" [] morning]> three_records)
             !! record_path "0008") ∧
  (∀ p, p ≠ record_path "0008" →
        (<[record_path "0008" := compile_record "0008" [] morning]> three_records) !! p
        = three_records !! p) ∧
  (∀ rid', is_Some (three_records !! record_path rid') →
        load_patient (H:=demo)
          (<[record_path "0008" := compile_record "0008" [] morning]> three_records) rid'
        = load_patient (H:=demo) three_records rid').
Proof.
  apply (@auto_id_never_overwrites demo three_records _ morning "0008").
  reflexivity.
Defined.

Lemma auto_id_needs_numeric_names_run :
  save_record (H:=demo) (<[record_path "ward7" := VDict []]> three_records) "" morning = None.
Proof.
  apply (proj2 (@auto_id_needs_numeric_names demo) three_records _ "ward7" (VDict []) morning).
  - reflexivity.
  - reflexivity.
Defined.

Lemma auto_ids_are_consecutive_run :
  ∃ n f2 rid2,
    "0008" = zfill 4 (str_of_int n) ∧
    save_record (H:=demo)
      (<[record_path "0008" := compile_record "0008" [] morning]> three_records)
      "" evening = Some (f2, rid2) ∧
    rid2 = zfill 4 (str_of_int (n + 1)) ∧ rid2 ≠ "0008" ∧
    load_patient f2 "0008"
    = load_patient (H:=demo)
        (<[record_path "0008" := compile_record "0008" [] morning]> three_records) "0008".
Proof.
  apply (@auto_ids_are_consecutive demo three_records _ morning evening "0008").
  reflexivity.
Defined.

Lemma home_shows_saved_record_run :
  home (H:=demo) (<[record_path "0007" := compile_record "0007" [] evening]> three_records) "0007" =
  Some (HomeInfo
          [("Patient Name", VStr "Jane Doe"); ("Patient ID", VStr "0007");
           ("Date of Birth", VStr "1991-03-14"); ("Gender", VStr "Female");
           ("Admission Date", VStr "2025-05-20");
           ("Attending Physician", VStr "Dr. Elliot");
           ("Diagnosis", VStr "Pneumonia");
           ("Allergies/Reactions", VStr "Penicillin")]
          (Some (VStr "resting"))).
Proof.
  apply (@home_shows_saved_record demo (λ v, eq_refl) three_records _ "0007" "0007" evening).
  reflexivity.
Defined.

Lemma prefill_is_last_reading_run :
  load_patient (H:=demo)
    (<[record_path "0007" := compile_record "0007" [] evening]> three_records) "0007"
    ≫= prefill
  = Some (VInt 118, VInt 76, VInt 64, VFloat 4630615504525688832).
Proof.
  apply (proj1 (@prefill_is_last_reading demo (λ v, eq_refl) three_records _ "0007" "0007" evening)).
  reflexivity.
Defined.

Lemma generated_id_reads_back_run :
  ∃ n, next_json_id [3; 7; 1]%Z = zfill 4 (str_of_int n) ∧
       Forall (λ y, (y < n)%Z) [3; 7; 1]%Z ∧
       Py.int (next_json_id [3; 7; 1]%Z) = Some n ∧
       id_of_name (record_file (next_json_id [3; 7; 1]%Z)) = Some n.
Proof. apply (generated_id_reads_back [3; 7; 1]%Z). Defined.

(** The row of the record [a.b] comes first, and its Delete button
    removes the record [a]. *)
Lemma delete_row_target_run :
  ∃ r, rid_of_filename (record_file "a.b") = Some r ∧
       is_Some (dotted_records !! record_path r) ∧
       delete (record_path "a") dotted_records = delete (record_path r) dotted_records ∧
       (plain_id "a.b" → r = "a.b") ∧
       (¬ plain_id "a.b" →
        r ≠ "a.b" ∧
        delete (record_path "a") dotted_records !! record_path "a.b"
        = dotted_records !! record_path "a.b" ∧
        load_patient (H:=demo) (delete (record_path "a") dotted_records) "a.b"
        = load_patient (H:=demo) dotted_records "a.b").
Proof.
  apply (@delete_row_target demo dotted_records
           (delete (record_path "a") dotted_records) "a.b").
  reflexivity.
Defined.

Lemma load_users_is_one_shot_run :
  ∃ f' users,
    load_users (H:=demo) {[USERS_FILE := VDict legacy_users]} = Some (f', users) ∧
    load_users (H:=demo) f' = Some (f', users).
Proof.
  do 2 eexists. split; [reflexivity|].
  apply (@load_users_is_one_shot demo (λ v, eq_refl) demo_digest_length
           {[USERS_FILE := VDict legacy_users]}).
  reflexivity.
Defined.

Lemma load_users_touches_one_file_run :
  ∃ f' users,
    load_users (H:=demo) (<[USERS_FILE := VDict legacy_users]> three_records) = Some (f', users) ∧
    (∀ p, p ≠ USERS_FILE → f' !! p = (<[USERS_FILE := VDict legacy_users]> three_records) !! p) ∧
    ∃ t data, f' !! USERS_FILE = Some t ∧ @json_loads demo t = Some (VDict data) ∧
              users = lower_keys data ∧ Forall (λ e, length64_entry e.2) data.
Proof.
  do 2 eexists. split; [reflexivity|].
  apply (@load_users_touches_one_file demo (λ v, eq_refl) demo_digest_length
           (<[USERS_FILE := VDict legacy_users]> three_records)).
  reflexivity.
Defined.

Lemma login_after_migration_run :
  ∃ users,
    snd <$> load_users (H:=demo) {[USERS_FILE := VDict legacy_users]} = Some users ∧
    verify_password (H:=demo) users " NURSE " "s3cret" = true.
Proof.
  eexists. split; [reflexivity|].
  apply (proj1 (proj2 (@login_after_migration demo demo_digest_length
           {[USERS_FILE := VDict legacy_users]} _ (VDict legacy_users)
           [("Nurse", VStr "letmein")] [] _ "nurse"
           (VDict [("password", VStr "s3cret")]) "s3cret"
           ltac:(by vm_compute) ltac:(reflexivity) (Forall_nil_2 _)
           ltac:(reflexivity) ltac:(by vm_compute)))).
  - simpl. lia.
  - reflexivity.
Defined.

Lemma one_entry_app_in_sync : in_sync (H:=demo) one_entry_app.
Proof. split; [discriminate | reflexivity]. Qed.

Lemma open_record_not_found_run :
  open_record one_entry_app " 77 " = (NotFound, ErrorBeep).
Proof.
  apply (proj2 (@open_record_not_found demo one_entry_app one_entry_sheet " 77 "
                  one_entry_app_in_sync eq_refl)).
  intros (row & c & Hin & H0 & Hc & Hstr).
  apply list_elem_of_singleton in Hin. subst row.
  injection H0 as <-. discriminate Hstr.
Defined.

Lemma blank_padded_number_is_unreachable_run :
  is_Some (records (add_record (H:=demo) "page" one_entry_app generate_padded).1 !! " 2002") ∧
  ∀ entry, strip entry ≠ " 2002".
Proof.
  apply (proj2 (@blank_padded_number_is_unreachable demo "page" one_entry_app)
           generate_padded " 2002" _ (Generated "patient_record_ 2002.html")).
  - reflexivity.
  - discriminate.
  - reflexivity.
  - right. by eexists.
Defined.

Lemma added_record_opens_run :
  ∃ folder filename,
    ((ask_type upload_scan = Some "Record" ∧ folder = "Records") ∨
     (ask_type upload_scan = Some "Med" ∧ folder = "Meds")) ∧
    (Added = Added → filename = basename (ask_file upload_scan)) ∧
    (∀ fn, Added = Generated fn →
           filename = "patient_record_" +:+ "2001" +:+ ".html" ∧ fn = filename) ∧
    open_record (add_record (H:=demo) "page" one_entry_app upload_scan).1 "2001"
    = (Opened (folder +:+ "/" +:+ filename), SuccessBeep).
Proof.
  apply (@added_record_opens demo "page" one_entry_app _ upload_scan Added "2001").
  - reflexivity.
  - by left.
  - reflexivity.
  - reflexivity.
Defined.

Lemma add_record_rejections_run :
  add_record (H:=demo) "page" one_entry_app wrong_type = (one_entry_app, InvalidType).
Proof.
  pose proof (@add_record_rejections demo "page" one_entry_app wrong_type) as (Hsame & Hinv & _).
  assert (He : (add_record (H:=demo) "page" one_entry_app wrong_type).2 = InvalidType).
  { apply Hinv. split; [by exists "2003"|]. by intros t [= <-]. }
  rewrite (surjective_pairing (add_record (H:=demo) "page" one_entry_app wrong_type)).
  rewrite He, Hsame; [done | by right].
Defined.

Lemma one_row_without_file_stops_the_program_run :
  load_records (H:=demo) (Some [header; [VStr "5"; VStr "Med"]]) = None ∧
  start (H:=demo) (Some [header; [VStr "5"; VStr "Med"]]) ∅ = None.
Proof.
  apply (@one_row_without_file_stops_the_program demo
           [header; [VStr "5"; VStr "Med"]] ∅ [VStr "5"; VStr "Med"; VNone] (VStr "5")).
  - by apply list_elem_of_singleton.
  - reflexivity.
  - discriminate.
  - intros s. discriminate.
Defined.


Lemma last_row_of_a_number_wins_run :
  (<["7" := "Records/new.html"]> (<["7" := "Meds/old.pdf"]> ∅) : gmap string string) !! "7"
  = Some "Records/new.html".
Proof.
  apply (@last_row_of_a_number_wins demo
           [header; [VStr "7"; VStr "Med"; VStr "old.pdf"];
                    [VInt 7; VStr "Record"; VStr "new.html"]]
           (Some [header; [VStr "7"; VStr "Med"; VStr "old.pdf"];
                          [VInt 7; VStr "Record"; VStr "new.html"]])
           (<["7" := "Records/new.html"]> (<["7" := "Meds/old.pdf"]> ∅))
           [[VStr "7"; VStr "Med"; VStr "old.pdf"]] []
           [VInt 7; VStr "Record"; VStr "new.html"] (VInt 7) (VStr "Record") "new.html");
    try reflexivity; try discriminate.
  intros row' c Hin. by apply elem_of_nil in Hin.
Defined.

End MoreRuns.
